(** * fetch-http-basic-auth: the Basic-auth gate of [index.ts]

    A shallow embedding of the request handler that [Bun.serve] is given in
    [index.ts], of the [btoa] call of the demo page ([index.tsx]) and of the
    runtime functions the handler calls, followed by the properties of the
    handler.

    JavaScript strings are sequences of UTF-16 code units; a [Buffer] is a
    sequence of bytes.  A call that can throw returns a [completion]. *)

From Stdlib Require Import PeanoNat NArith List String Ascii Bool Lia.
Import ListNotations.
Local Open Scope N_scope.

(** ** JavaScript strings and values *)

Definition code_unit := N.
Definition jsstring := list code_unit.

(** A string literal of the source: one code unit per character. *)
Definition lit (s : string) : jsstring :=
  map N_of_ascii (list_ascii_of_string s).

Fixpoint str_eqb (a b : jsstring) : bool :=
  match a, b with
  | [], [] => true
  | x :: a', y :: b' => (x =? y) && str_eqb a' b'
  | _, _ => false
  end.

(** The values the handler compares: a string, or [undefined] (the second
    target of a destructuring whose array has a single element). *)
Inductive value : Type :=
| Undefined
| Str (s : jsstring).

(** [a === b] and [a !== b]. *)
Definition strict_eq (a b : value) : bool :=
  match a, b with
  | Undefined, Undefined => true
  | Str s, Str t => str_eqb s t
  | _, _ => false
  end.

Definition strict_neq (a b : value) : bool := negb (strict_eq a b).

(** ** Completions: a call returns normally or throws *)

Inductive exn : Type :=
| TypeError
| InvalidCharacterError.

Inductive completion (A : Type) : Type :=
| Normal (a : A)
| Throw (e : exn).
Arguments Normal {A} a.
Arguments Throw {A} e.

Definition bind {A B : Type} (c : completion A) (k : A -> completion B)
  : completion B :=
  match c with
  | Normal a => k a
  | Throw e => Throw e
  end.

Notation "x <- c ;; k" := (bind c (fun x => k))
  (at level 61, c at next level, right associativity).

(** [!v] for a value that is a string or [null]: [null] and the empty string
    are falsy. *)
Definition not_ (v : option jsstring) : bool :=
  match v with
  | None => true
  | Some [] => true
  | Some (_ :: _) => false
  end.

(** [v.m(...)] on a value that is a string or [null]: reading a property of
    [null] throws a [TypeError]. *)
Definition call {A : Type} (v : option jsstring) (m : jsstring -> A)
  : completion A :=
  match v with
  | None => Throw TypeError
  | Some s => Normal (m s)
  end.

(** ** String methods *)

(** [s.startsWith(p)]. *)
Fixpoint startsWith (s p : jsstring) {struct p} : bool :=
  match p, s with
  | [], _ => true
  | x :: p', y :: s' => (x =? y) && startsWith s' p'
  | _ :: _, [] => false
  end.

(** [s.slice(n)] for [n >= 0]. *)
Definition slice (s : jsstring) (n : nat) : jsstring := skipn n s.

Definition colon : code_unit := 58.

(** [s.split(sep)] for a separator of one code unit: the fields between the
    occurrences of [sep], all of them; never the empty array. *)
Fixpoint split (sep : code_unit) (s : jsstring) : list jsstring :=
  match s with
  | [] => [[]]
  | c :: s' =>
      if c =? sep then [] :: split sep s'
      else match split sep s' with
           | [] => [[c]]
           | f :: fs => (c :: f) :: fs
           end
  end.

(** [const [a, b] = arr]: the elements at 0 and 1, [undefined] where the
    array is too short; further elements are dropped. *)
Definition destructure2 (arr : list jsstring) : value * value :=
  match arr with
  | [] => (Undefined, Undefined)
  | [a] => (Str a, Undefined)
  | a :: b :: _ => (Str a, Str b)
  end.

(** ** [Buffer.from(s, 'base64')], [buf.toString()] and [btoa]

    The decoder of Node's [Buffer], which Bun provides under the same name:
    both the standard and the URL-safe alphabet are read, a code unit outside
    the alphabet (white space included) is skipped, ['='] ends the input, and
    the padding may be missing.  It returns a buffer for every string and
    never throws. *)

Definition unbase64 (c : code_unit) : option N :=
  if (65 <=? c) && (c <=? 90) then Some (c - 65)
  else if (97 <=? c) && (c <=? 122) then Some (c - 71)
  else if (48 <=? c) && (c <=? 57) then Some (c + 4)
  else if (c =? 43) || (c =? 45) then Some 62
  else if (c =? 47) || (c =? 95) then Some 63
  else None.

Definition pad : code_unit := 61.

Fixpoint sextets (s : jsstring) : list N :=
  match s with
  | [] => []
  | c :: s' =>
      match unbase64 c with
      | Some v => v :: sextets s'
      | None => if c =? pad then [] else sextets s'
      end
  end.

Definition byte1 (a b : N) : N :=
  N.lor (N.shiftl (N.land a 63) 2) (N.shiftr (N.land b 48) 4).
Definition byte2 (b c : N) : N :=
  N.lor (N.shiftl (N.land b 15) 4) (N.shiftr (N.land c 60) 2).
Definition byte3 (c d : N) : N :=
  N.lor (N.shiftl (N.land c 3) 6) (N.land d 63).

Fixpoint bytes_of_sextets (l : list N) : list N :=
  match l with
  | a :: b :: c :: d :: r =>
      byte1 a b :: byte2 b c :: byte3 c d :: bytes_of_sextets r
  | [a; b; c] => [byte1 a b; byte2 b c]
  | [a; b] => [byte1 a b]
  | _ => []
  end.

Definition Buffer_from (s : jsstring) : list N :=
  bytes_of_sextets (sextets s).

(** The encoder: three bytes give four characters of the standard alphabet,
    a last group of one or two bytes is padded with ['=']. *)
Definition base64_char (v : N) : code_unit :=
  if v <? 26 then v + 65
  else if v <? 52 then v + 71
  else if v <? 62 then v - 4
  else if v =? 62 then 43
  else 47.

Definition sextet1 (x : N) : N := N.shiftr x 2.
Definition sextet2 (x y : N) : N :=
  N.lor (N.shiftl (N.land x 3) 4) (N.shiftr y 4).
Definition sextet3 (y z : N) : N :=
  N.lor (N.shiftl (N.land y 15) 2) (N.shiftr z 6).
Definition sextet4 (z : N) : N := N.land z 63.

Fixpoint base64_encode (bs : list N) : jsstring :=
  match bs with
  | x :: y :: z :: r =>
      base64_char (sextet1 x) :: base64_char (sextet2 x y)
      :: base64_char (sextet3 y z) :: base64_char (sextet4 z)
      :: base64_encode r
  | [x; y] =>
      [base64_char (sextet1 x); base64_char (sextet2 x y);
       base64_char (sextet3 y 0); pad]
  | [x] => [base64_char (sextet1 x); base64_char (sextet2 x 0); pad; pad]
  | [] => []
  end.

(** [btoa(s)] of the demo page: the code units of [s] are taken as bytes; a
    code unit above 255 throws. *)
Definition btoa (s : jsstring) : completion jsstring :=
  if forallb (fun c => c <? 256) s then Normal (base64_encode s)
  else Throw InvalidCharacterError.

(** [buf.toString()]: the bytes are decoded as UTF-8; a byte that cannot
    continue or start a sequence gives U+FFFD and decoding goes on, so that
    every buffer has a string.  A pending sequence is the code point read so
    far, the number of bytes still needed and the range allowed for the next
    byte. *)
Definition pending : Type := N * N * N * N.

Definition replacement : code_unit := 65533.

Definition utf8_lead (b : N) : jsstring * option pending :=
  if b <=? 127 then ([b], None)
  else if (194 <=? b) && (b <=? 223) then
    ([], Some (N.land b 31, 1, 128, 191))
  else if (224 <=? b) && (b <=? 239) then
    ([], Some (N.land b 15, 2,
               (if b =? 224 then 160 else 128),
               (if b =? 237 then 159 else 191)))
  else if (240 <=? b) && (b <=? 244) then
    ([], Some (N.land b 7, 3,
               (if b =? 240 then 144 else 128),
               (if b =? 244 then 143 else 191)))
  else ([replacement], None).

(** A code point as one code unit or as a surrogate pair. *)
Definition units_of (cp : N) : jsstring :=
  if cp <? 65536 then [cp]
  else [55296 + N.shiftr (cp - 65536) 10; 56320 + N.land (cp - 65536) 1023].

Fixpoint utf8_decode (st : option pending) (bs : list N) : jsstring :=
  match bs with
  | [] => match st with None => [] | Some _ => [replacement] end
  | b :: bs' =>
      match st with
      | None =>
          let (out, st') := utf8_lead b in out ++ utf8_decode st' bs'
      | Some (cp, needed, lo, hi) =>
          if (lo <=? b) && (b <=? hi) then
            let cp' := N.lor (N.shiftl cp 6) (N.land b 63) in
            if needed =? 1 then units_of cp' ++ utf8_decode None bs'
            else utf8_decode (Some (cp', needed - 1, 128, 191)) bs'
          else
            let (out, st') := utf8_lead b in
            replacement :: out ++ utf8_decode st' bs'
      end
  end.

Definition toString (buf : list N) : jsstring := utf8_decode None buf.

(** ** Requests and responses *)

(** A header list, in the order of arrival. *)
Definition Headers : Type := list (jsstring * jsstring).

Definition lower (c : code_unit) : code_unit :=
  if (65 <=? c) && (c <=? 90) then c + 32 else c.

Definition name_eqb (a b : jsstring) : bool :=
  str_eqb (map lower a) (map lower b).

(** [headers.get(name)]: the values under [name], compared without case,
    joined by a comma and a space; [null] when there is none. *)
Definition Headers_get (h : Headers) (name : jsstring) : option jsstring :=
  match filter (fun nv => name_eqb (fst nv) name) h with
  | [] => None
  | (_, v) :: rest =>
      Some (fold_left (fun acc nv => acc ++ lit ", " ++ snd nv) rest v)
  end.

(** [new URL(request.url)]: the runtime hands the handler an absolute URL,
    which always parses; the record keeps its components. *)
Record URL : Type := {
  host : jsstring;
  pathname : jsstring;
  search : jsstring
}.

Module Request.
Record t : Type := {
  method : jsstring;
  url : URL;
  headers : Headers
}.
End Request.

Inductive Body : Type :=
| Null
| Json (fields : list (string * jsstring)).

Module Response.
(** [headers] are the ones the handler gives in the response's init, and
    the content type that the runtime adds to a JSON body. *)
Record t : Type := {
  status : N;
  headers : Headers;
  body : Body
}.
End Response.

(** [new Response(body, { status, headers })]. *)
Definition new_Response (b : Body) (st : N) (h : Headers) : Response.t :=
  {| Response.status := st; Response.headers := h; Response.body := b |}.

(** [Response.json(obj)]: status 200, the object as JSON and the header
    [content-type: application/json;charset=utf-8]; a property whose value
    is [undefined] is left out of the JSON text. *)
Definition json_headers : Headers :=
  [(lit "content-type", lit "application/json;charset=utf-8")].

Fixpoint stringify (obj : list (string * value)) : list (string * jsstring) :=
  match obj with
  | [] => []
  | (k, Undefined) :: obj' => stringify obj'
  | (k, Str s) :: obj' => (k, s) :: stringify obj'
  end.

Definition Response_json (obj : list (string * value)) : Response.t :=
  new_Response (Json (stringify obj)) 200 json_headers.

(** ** The handler *)

(** [secrets.ts] exports the two constants; the handler only reads them. *)
Record secrets : Type := {
  USER_NAME : jsstring;
  PASSWORD : jsstring
}.

Definition unauthorized : Response.t :=
  new_Response Null 401 [(lit "WWW-Authenticate", lit "Basic")].

Definition not_found : Response.t := new_Response Null 404 [].

Definition fetch (cfg : secrets) (request : Request.t)
  : completion Response.t :=
  let url := Request.url request in
  if strict_eq (Str (pathname url)) (Str (lit "/api/data")) then
    let authorization :=
      Headers_get (Request.headers request) (lit "Authorization") in
    guard <- (if not_ authorization then Normal true
              else b <- call authorization
                          (fun s => startsWith s (lit "Basic ")) ;;
                   Normal (negb b)) ;;
    if (guard : bool) then Normal unauthorized
    else
      base64 <- call authorization
                  (fun s => slice s (List.length (lit "Basic "))) ;;
      let '(userName, password) :=
        destructure2 (split colon (toString (Buffer_from base64))) in
      if strict_neq userName (Str (USER_NAME cfg))
         || strict_neq password (Str (PASSWORD cfg))
      then Normal unauthorized
      else Normal (Response_json [("userName"%string, userName)])
  else Normal not_found.

(** ** The handler, with the state it can reach

    What outlives a call of the handler is the module's bindings and the
    request object it is given, whose [Headers] can be changed by [set] and
    [delete]; the objects the handler makes itself (the URL, the buffer, the
    array, the response) are values.  A statement of the handler takes the
    store and gives it back with its completion. *)
Record store : Type := {
  bindings : secrets;
  request : Request.t
}.

Definition js (A : Type) : Type := store -> completion A * store.

Definition ret {A : Type} (a : A) : js A := fun s => (Normal a, s).

Definition lift {A : Type} (c : completion A) : js A := fun s => (c, s).

Definition bind_js {A B : Type} (m : js A) (k : A -> js B) : js B :=
  fun s =>
    match m s with
    | (Normal a, s') => k a s'
    | (Throw e, s') => (Throw e, s')
    end.

Notation "x <~ c ;; k" := (bind_js c (fun x => k))
  (at level 61, c at next level, right associativity).

(** [new URL(request.url)]. *)
Definition request_url : js URL :=
  fun s => (Normal (Request.url (request s)), s).

(** [request.headers.get(name)]. *)
Definition request_headers_get (name : jsstring) : js (option jsstring) :=
  fun s => (Normal (Headers_get (Request.headers (request s)) name), s).

(** [request.headers.delete(name)], which the handler never calls: the
    request loses the headers of that name. *)
Definition request_headers_delete (name : jsstring) : js unit :=
  fun s =>
    (Normal tt,
     {| bindings := bindings s;
        request :=
          {| Request.method := Request.method (request s);
             Request.url := Request.url (request s);
             Request.headers :=
               filter (fun nv => negb (name_eqb (fst nv) name))
                 (Request.headers (request s)) |} |}).

(** The imported bindings [USER_NAME] and [PASSWORD]. *)
Definition import_USER_NAME : js jsstring :=
  fun s => (Normal (USER_NAME (bindings s)), s).

Definition import_PASSWORD : js jsstring :=
  fun s => (Normal (PASSWORD (bindings s)), s).

(** The handler statement by statement; [a || b] reads [b] only when [a] is
    false. *)
Definition fetch_st : js Response.t :=
  url <~ request_url ;;
  if strict_eq (Str (pathname url)) (Str (lit "/api/data")) then
    authorization <~ request_headers_get (lit "Authorization") ;;
    guard <~ (if not_ authorization then ret true
              else b <~ lift (call authorization
                                (fun s => startsWith s (lit "Basic "))) ;;
                   ret (negb b)) ;;
    if (guard : bool) then ret unauthorized
    else
      base64 <~ lift (call authorization
                        (fun s => slice s (List.length (lit "Basic ")))) ;;
      let '(userName, password) :=
        destructure2 (split colon (toString (Buffer_from base64))) in
      mismatch <~ (expected <~ import_USER_NAME ;;
                   if strict_neq userName (Str expected) then ret true
                   else expected' <~ import_PASSWORD ;;
                        ret (strict_neq password (Str expected'))) ;;
      if (mismatch : bool) then ret unauthorized
      else ret (Response_json [("userName"%string, userName)])
  else ret not_found.

(** [Bun.serve] calls the handler once for each request that its static
    route ['/'] does not answer, in the order of arrival, each with a request
    object of its own; the module's bindings go from one call to the next as
    the call before left them. *)
Definition handle (cfg : secrets) (r : Request.t)
  : secrets * completion Response.t :=
  let (resp, s') := fetch_st {| bindings := cfg; request := r |} in
  (bindings s', resp).

Fixpoint serve (cfg : secrets) (requests : list Request.t)
  : secrets * list (completion Response.t) :=
  match requests with
  | [] => (cfg, [])
  | r :: rs =>
      let (cfg', resp) := handle cfg r in
      let (cfg'', resps) := serve cfg' rs in
      (cfg'', resp :: resps)
  end.

(** A [GET] request for [path] with the given [Authorization] header, as the
    demo page sends them. *)
Definition get_request (path : jsstring) (authorization : option jsstring)
  : Request.t :=
  {| Request.method := lit "GET";
     Request.url := {| host := lit "localhost:3000"; pathname := path;
                       search := [] |};
     Request.headers :=
       match authorization with
       | None => []
       | Some v => [(lit "Authorization", v)]
       end |}.

(** The credentials of the README. *)
Definition tom_1234 : secrets :=
  {| USER_NAME := lit "tom"; PASSWORD := lit "1234" |}.

(** The text the handler splits: the payload after the scheme, decoded. *)
Definition fields (base64 : jsstring) : list jsstring :=
  split colon (toString (Buffer_from base64)).

(** Standard base64 as RFC 4648 writes it: groups of four characters of the
    standard alphabet, the last group closed by one or two ['='] when the
    input is not a multiple of three bytes.  The handler never tests it. *)
Definition standard_char (c : code_unit) : bool :=
  (65 <=? c) && (c <=? 90) || (97 <=? c) && (c <=? 122)
  || (48 <=? c) && (c <=? 57) || (c =? 43) || (c =? 47).

Fixpoint well_formed_base64 (s : jsstring) : bool :=
  match s with
  | [] => true
  | [a; b; c; d] =>
      standard_char a && standard_char b
      && (standard_char c && (standard_char d || (d =? pad))
          || (c =? pad) && (d =? pad))
  | a :: b :: c :: d :: r =>
      standard_char a && standard_char b && standard_char c
      && standard_char d && well_formed_base64 r
  | _ => false
  end.

(** Buffers hold bytes. *)
Definition is_bytes (bs : list N) : Prop := Forall (fun b => b < 256) bs.

(** The numbers below [n]: facts about one or two bytes are checked on all
    of them. *)
Definition below (n : nat) : list N := map N.of_nat (seq 0 n).

(** The protected path and the header the handler reads. *)
Definition protected : jsstring := lit "/api/data".

Definition Authorization (request : Request.t) : option jsstring :=
  Headers_get (Request.headers request) (lit "Authorization").

(** Two requests that differ in method, query string, header case and other
    headers. *)
Definition post_with_query : Request.t :=
  {| Request.method := lit "POST";
     Request.url := {| host := lit "localhost:3000"; pathname := protected;
                       search := lit "?page=2" |};
     Request.headers := [(lit "Accept", lit "*/*");
                         (lit "authorization", lit "Basic dG9tOjEyMzQ=")] |}.

(** A concrete string has no colon. *)
Ltac no_colon := vm_compute; intros H; repeat destruct H as [H|H];
  solve [discriminate H | exact H].

(** ** The examples of the README and the demo page *)

(** [!v] for a destructured value: [undefined] and the empty string are
    falsy. *)
Definition not_value (v : value) : bool :=
  match v with
  | Undefined => true
  | Str [] => true
  | Str (_ :: _) => false
  end.

(** [new Response()]: status 200, no body, no headers. *)
Definition ok_response : Response.t := new_Response Null 200 [].

(** The first example of the README: the gate on every path, with the
    constants [USER_NAME = 'tom'] and [PASSWORD = '1234'] of the snippet. *)
Module BasicExample.
Definition USER_NAME : jsstring := lit "tom".
Definition PASSWORD : jsstring := lit "1234".

Definition fetch (request : Request.t) : completion Response.t :=
  let authorization :=
    Headers_get (Request.headers request) (lit "Authorization") in
  guard <- (if not_ authorization then Normal true
            else b <- call authorization
                        (fun s => startsWith s (lit "Basic ")) ;;
                 Normal (negb b)) ;;
  if (guard : bool) then Normal unauthorized
  else
    base64 <- call authorization
                (fun s => slice s (List.length (lit "Basic "))) ;;
    let '(userName, password) :=
      destructure2 (split colon (toString (Buffer_from base64))) in
    if strict_neq userName (Str USER_NAME)
       || strict_neq password (Str PASSWORD)
    then Normal unauthorized
    else Normal ok_response.
End BasicExample.

(** The second example of the README: the branch that answers 401 to an
    empty user name or password, and checks nothing else. *)
Module ResetExample.
Definition fetch (request : Request.t) : completion Response.t :=
  let authorization :=
    Headers_get (Request.headers request) (lit "Authorization") in
  guard <- (if not_ authorization then Normal true
            else b <- call authorization
                        (fun s => startsWith s (lit "Basic ")) ;;
                 Normal (negb b)) ;;
  if (guard : bool) then Normal unauthorized
  else
    base64 <- call authorization
                (fun s => slice s (List.length (lit "Basic "))) ;;
    let '(userName, password) :=
      destructure2 (split colon (toString (Buffer_from base64))) in
    if not_value userName || not_value password
    then Normal unauthorized
    else Normal ok_response.
End ResetExample.

(** The header of the second demo button of [index.tsx]:
    [`Basic ${btoa(`${USER_NAME}:${PASSWORD}`)}`]. *)
Definition demo2_authorization (cfg : secrets) : completion jsstring :=
  b64 <- btoa (USER_NAME cfg ++ lit ":" ++ PASSWORD cfg) ;;
  Normal (lit "Basic " ++ b64).

(** [arr.join(sep)] for a separator of one code unit. *)
Fixpoint join (sep : code_unit) (arr : list jsstring) : jsstring :=
  match arr with
  | [] => []
  | [f] => f
  | f :: fs => f ++ sep :: join sep fs
  end.

(** Space, tab, line feed and carriage return. *)
Definition is_space (c : code_unit) : bool :=
  (c =? 32) || (c =? 9) || (c =? 10) || (c =? 13).

(** The URL-safe alphabet writes ['-'] for ['+'] and ['_'] for ['/']. *)
Definition urlsafe (c : code_unit) : code_unit :=
  if c =? 43 then 45 else if c =? 47 then 95 else c.

(** A string without its padding. *)
Definition unpadded (s : jsstring) : jsstring :=
  filter (fun c => negb (c =? pad)) s.

(** Header names in lower case. *)
Definition lower_names (h : Headers) : Headers :=
  map (fun nv => (map lower (fst nv), snd nv)) h.

Definition with_headers (request : Request.t) (h : Headers) : Request.t :=
  {| Request.method := Request.method request;
     Request.url := Request.url request;
     Request.headers := h |}.

(** ** Strings *)

Lemma str_eqb_refl (s : jsstring) : str_eqb s s = true.
Proof.
  induction s as [|c s IH]; simpl; [reflexivity|].
  now rewrite N.eqb_refl.
Qed.

Lemma str_eqb_eq (a b : jsstring) : str_eqb a b = true <-> a = b.
Proof.
  split; [|intros ->; apply str_eqb_refl].
  revert b; induction a as [|x a IH]; intros [|y b]; simpl; try discriminate.
  - reflexivity.
  - intros H. apply andb_true_iff in H as [Hxy Hab].
    apply N.eqb_eq in Hxy. now rewrite Hxy, (IH b Hab).
Qed.

Lemma str_eqb_neq (a b : jsstring) : str_eqb a b = false <-> a <> b.
Proof.
  rewrite <- str_eqb_eq. destruct (str_eqb a b); split; congruence.
Qed.

Lemma startsWith_app (p x : jsstring) : startsWith (p ++ x) p = true.
Proof.
  induction p as [|c p IH]; simpl; [reflexivity|].
  now rewrite N.eqb_refl.
Qed.

Lemma startsWith_inv (s p : jsstring) :
  startsWith s p = true -> s = p ++ slice s (List.length p).
Proof.
  revert s; induction p as [|c p IH]; intros s; simpl; [reflexivity|].
  destruct s as [|y s]; [discriminate|].
  intros H. apply andb_true_iff in H as [Hc Hs].
  apply N.eqb_eq in Hc. subst y. unfold slice in *; simpl.
  now rewrite <- (IH s Hs).
Qed.

Lemma slice_app (p x : jsstring) : slice (p ++ x) (List.length p) = x.
Proof.
  unfold slice. induction p as [|c p IH]; simpl; [reflexivity | exact IH].
Qed.

Lemma split_not_nil (sep : code_unit) (s : jsstring) : split sep s <> [].
Proof.
  destruct s as [|c s]; simpl; [discriminate|].
  destruct (c =? sep); [discriminate|].
  destruct (split sep s); discriminate.
Qed.

Lemma split_no_sep (sep : code_unit) (s : jsstring) :
  ~ In sep s -> split sep s = [s].
Proof.
  induction s as [|c s IH]; simpl; intros H; [reflexivity|].
  destruct (N.eqb_spec c sep) as [->|Hne]; [exfalso; apply H; now left|].
  rewrite IH; [reflexivity | intros Hin; apply H; now right].
Qed.

Lemma split_app (sep : code_unit) (u p : jsstring) :
  ~ In sep u -> split sep (u ++ sep :: p) = u :: split sep p.
Proof.
  induction u as [|c u IH]; simpl; intros H.
  - now rewrite N.eqb_refl.
  - destruct (N.eqb_spec c sep) as [->|Hne]; [exfalso; apply H; now left|].
    rewrite IH; [reflexivity | intros Hin; apply H; now right].
Qed.

(** No field of a split contains the separator. *)
Lemma split_fields (sep : code_unit) (s : jsstring) :
  Forall (fun f => ~ In sep f) (split sep s).
Proof.
  induction s as [|c s IH]; simpl.
  - constructor; [intros [] | constructor].
  - destruct (N.eqb_spec c sep) as [->|Hne].
    + constructor; [intros [] | exact IH].
    + destruct (split sep s) as [|f fs]; inversion IH; subst.
      * constructor; [|constructor]. intros [H|[]]. congruence.
      * constructor; [|assumption]. intros [H|H]; [congruence | contradiction].
Qed.

(** ** Base64: decoding what the encoder wrote *)


Lemma below_In (n : nat) (x : N) : x < N.of_nat n -> In x (below n).
Proof.
  intros H. unfold below. apply in_map_iff.
  exists (N.to_nat x). split; [apply N2Nat.id|].
  apply in_seq. lia.
Qed.

Lemma check1 (n : nat) (P : N -> bool) :
  forallb P (below n) = true -> forall x, x < N.of_nat n -> P x = true.
Proof.
  intros H x Hx. rewrite forallb_forall in H. apply H, below_In, Hx.
Qed.

Lemma check2 (n m : nat) (P : N -> N -> bool) :
  forallb (fun x => forallb (P x) (below m)) (below n) = true ->
  forall x y, x < N.of_nat n -> y < N.of_nat m -> P x y = true.
Proof.
  intros H x y Hx Hy.
  apply (check1 m (P x)); [|exact Hy].
  apply (check1 n (fun x => forallb (P x) (below m))); assumption.
Qed.

Lemma unbase64_base64_char (v : N) :
  v < 64 -> unbase64 (base64_char v) = Some v.
Proof.
  intros H.
  assert (C : (match unbase64 (base64_char v) with
               | Some w => w =? v
               | None => false
               end) = true).
  { revert v H. apply (check1 64). vm_compute. reflexivity. }
  destruct (unbase64 (base64_char v)); [|discriminate].
  apply N.eqb_eq in C. now subst.
Qed.

Lemma sextet1_lt (x : N) : x < 256 -> sextet1 x < 64.
Proof.
  intros H. apply N.ltb_lt. revert x H.
  apply (check1 256 (fun x => sextet1 x <? 64)). vm_compute. reflexivity.
Qed.

Lemma sextet2_lt (x y : N) : x < 256 -> y < 256 -> sextet2 x y < 64.
Proof.
  intros Hx Hy. apply N.ltb_lt. revert x y Hx Hy.
  apply (check2 256 256 (fun x y => sextet2 x y <? 64)).
  vm_compute. reflexivity.
Qed.

Lemma sextet3_lt (y z : N) : y < 256 -> z < 256 -> sextet3 y z < 64.
Proof.
  intros Hy Hz. apply N.ltb_lt. revert y z Hy Hz.
  apply (check2 256 256 (fun y z => sextet3 y z <? 64)).
  vm_compute. reflexivity.
Qed.

Lemma sextet4_lt (z : N) : z < 256 -> sextet4 z < 64.
Proof.
  intros H. apply N.ltb_lt. revert z H.
  apply (check1 256 (fun z => sextet4 z <? 64)). vm_compute. reflexivity.
Qed.

Lemma byte1_sextets (x y : N) :
  x < 256 -> y < 256 -> byte1 (sextet1 x) (sextet2 x y) = x.
Proof.
  intros Hx Hy. apply N.eqb_eq. revert x y Hx Hy.
  apply (check2 256 256 (fun x y => byte1 (sextet1 x) (sextet2 x y) =? x)).
  vm_compute. reflexivity.
Qed.

(** The second byte takes four bits from each of two sextets, which three
    bytes made: the two halves are checked apart. *)
Lemma byte2_high (x y : N) :
  x < 256 -> y < 256 -> N.land (sextet2 x y) 15 = N.shiftr y 4.
Proof.
  intros Hx Hy. apply N.eqb_eq. revert x y Hx Hy.
  apply (check2 256 256
           (fun x y => N.land (sextet2 x y) 15 =? N.shiftr y 4)).
  vm_compute. reflexivity.
Qed.

Lemma byte2_low (y z : N) :
  y < 256 -> z < 256 ->
  N.shiftr (N.land (sextet3 y z) 60) 2 = N.land y 15.
Proof.
  intros Hy Hz. apply N.eqb_eq. revert y z Hy Hz.
  apply (check2 256 256
           (fun y z => N.shiftr (N.land (sextet3 y z) 60) 2 =? N.land y 15)).
  vm_compute. reflexivity.
Qed.

Lemma byte2_sextets (x y z : N) :
  x < 256 -> y < 256 -> z < 256 ->
  byte2 (sextet2 x y) (sextet3 y z) = y.
Proof.
  intros Hx Hy Hz. unfold byte2.
  rewrite (byte2_high x y Hx Hy), (byte2_low y z Hy Hz).
  apply N.eqb_eq. revert y Hy.
  apply (check1 256
           (fun y => N.lor (N.shiftl (N.shiftr y 4) 4) (N.land y 15) =? y)).
  vm_compute. reflexivity.
Qed.

Lemma byte3_high (y z : N) :
  y < 256 -> z < 256 -> N.land (sextet3 y z) 3 = N.shiftr z 6.
Proof.
  intros Hy Hz. apply N.eqb_eq. revert y z Hy Hz.
  apply (check2 256 256
           (fun y z => N.land (sextet3 y z) 3 =? N.shiftr z 6)).
  vm_compute. reflexivity.
Qed.

Lemma byte3_sextets (y z : N) :
  y < 256 -> z < 256 -> byte3 (sextet3 y z) (sextet4 z) = z.
Proof.
  intros Hy Hz. unfold byte3. rewrite (byte3_high y z Hy Hz).
  apply N.eqb_eq. revert z Hz.
  apply (check1 256
           (fun z => N.lor (N.shiftl (N.shiftr z 6) 6)
                       (N.land (sextet4 z) 63) =? z)).
  vm_compute. reflexivity.
Qed.

Lemma sextets_char (v : N) (s : jsstring) :
  v < 64 -> sextets (base64_char v :: s) = v :: sextets s.
Proof.
  intros H. simpl. now rewrite (unbase64_base64_char v H).
Qed.

Lemma sextets_pad (s : jsstring) : sextets (pad :: s) = [].
Proof. reflexivity. Qed.

(** Induction three bytes at a time, as the encoder reads them. *)
Lemma bytes_ind3 (P : list N -> Prop) :
  P [] ->
  (forall x, P [x]) ->
  (forall x y, P [x; y]) ->
  (forall x y z r, P r -> P (x :: y :: z :: r)) ->
  forall bs, P bs.
Proof.
  intros H0 H1 H2 H3.
  fix IH 1. intros [|x [|y [|z r]]].
  - exact H0.
  - apply H1.
  - apply H2.
  - apply H3, IH.
Qed.


Lemma sextets_base64_encode_group (x y z : N) (r : list N) :
  x < 256 -> y < 256 -> z < 256 ->
  sextets (base64_encode (x :: y :: z :: r)) =
  sextet1 x :: sextet2 x y :: sextet3 y z :: sextet4 z
  :: sextets (base64_encode r).
Proof.
  intros Hx Hy Hz.
  change (base64_encode (x :: y :: z :: r))
    with (base64_char (sextet1 x) :: base64_char (sextet2 x y)
          :: base64_char (sextet3 y z) :: base64_char (sextet4 z)
          :: base64_encode r).
  rewrite (sextets_char _ _ (sextet1_lt x Hx)).
  rewrite (sextets_char _ _ (sextet2_lt x y Hx Hy)).
  rewrite (sextets_char _ _ (sextet3_lt y z Hy Hz)).
  rewrite (sextets_char _ _ (sextet4_lt z Hz)).
  reflexivity.
Qed.

(** [Buffer.from(base64(bs), 'base64')] is [bs]. *)
Lemma Buffer_from_base64_encode (bs : list N) :
  is_bytes bs -> Buffer_from (base64_encode bs) = bs.
Proof.
  unfold Buffer_from, is_bytes.
  induction bs as [|x|x y|x y z r IH] using bytes_ind3; intros H.
  - reflexivity.
  - inversion H as [|? ? Hx _]; subst.
    assert (H0 : 0 < 256) by lia.
    change (base64_encode [x])
      with [base64_char (sextet1 x); base64_char (sextet2 x 0); pad; pad].
    rewrite (sextets_char _ _ (sextet1_lt x Hx)).
    rewrite (sextets_char _ _ (sextet2_lt x 0 Hx H0)).
    rewrite sextets_pad. simpl.
    now rewrite (byte1_sextets x 0 Hx H0).
  - inversion H as [|? ? Hx H']; subst.
    inversion H' as [|? ? Hy _]; subst.
    assert (H0 : 0 < 256) by lia.
    change (base64_encode [x; y])
      with [base64_char (sextet1 x); base64_char (sextet2 x y);
            base64_char (sextet3 y 0); pad].
    rewrite (sextets_char _ _ (sextet1_lt x Hx)).
    rewrite (sextets_char _ _ (sextet2_lt x y Hx Hy)).
    rewrite (sextets_char _ _ (sextet3_lt y 0 Hy H0)).
    rewrite sextets_pad. simpl.
    now rewrite (byte1_sextets x y Hx Hy), (byte2_sextets x y 0 Hx Hy H0).
  - inversion H as [|? ? Hx H']; subst.
    inversion H' as [|? ? Hy H'']; subst.
    inversion H'' as [|? ? Hz Hr]; subst.
    rewrite (sextets_base64_encode_group x y z r Hx Hy Hz).
    change (bytes_of_sextets
              (sextet1 x :: sextet2 x y :: sextet3 y z :: sextet4 z
               :: sextets (base64_encode r)))
      with (byte1 (sextet1 x) (sextet2 x y)
            :: byte2 (sextet2 x y) (sextet3 y z)
            :: byte3 (sextet3 y z) (sextet4 z)
            :: bytes_of_sextets (sextets (base64_encode r))).
    rewrite (byte1_sextets x y Hx Hy), (byte2_sextets x y z Hx Hy Hz),
      (byte3_sextets y z Hy Hz), (IH Hr).
    reflexivity.
Qed.

(** ASCII bytes are their own UTF-8 text. *)
Lemma toString_ascii (bs : list N) :
  Forall (fun b => b < 128) bs -> toString bs = bs.
Proof.
  unfold toString. induction 1 as [|b bs Hb _ IH]; simpl; [reflexivity|].
  unfold utf8_lead.
  assert (Hle : (b <=? 127) = true) by (apply N.leb_le; lia).
  rewrite Hle. simpl. now rewrite IH.
Qed.

(** ** The handler on the protected path *)


(** The handler never throws on the protected path, and its response is
    decided by the header alone. *)
Lemma fetch_protected (cfg : secrets) (request : Request.t) :
  pathname (Request.url request) = protected ->
  fetch cfg request =
  Normal
    match Authorization request with
    | None => unauthorized
    | Some a =>
        if startsWith a (lit "Basic ") then
          match fields (slice a 6) with
          | u :: p :: _ =>
              if str_eqb u (USER_NAME cfg) && str_eqb p (PASSWORD cfg)
              then Response_json [("userName"%string, Str u)]
              else unauthorized
          | _ => unauthorized
          end
        else unauthorized
    end.
Proof.
  intros Hpath. unfold fetch, Authorization. rewrite Hpath.
  change (strict_eq (Str protected) (Str (lit "/api/data")))
    with (str_eqb protected protected).
  rewrite str_eqb_refl.
  destruct (Headers_get (Request.headers request) (lit "Authorization"))
    as [a|]; [|reflexivity].
  destruct a as [|c a]; [reflexivity|].
  cbn [not_ call bind].
  destruct (startsWith (c :: a) (lit "Basic ")); cbn [negb]; [|reflexivity].
  change (slice (c :: a) (List.length (lit "Basic ")))
    with (slice (c :: a) 6).
  fold (fields (slice (c :: a) 6)).
  unfold strict_neq.
  destruct (fields (slice (c :: a) 6)) as [|u [|p rest]];
    cbn [destructure2 strict_eq negb orb]; try reflexivity.
  - now rewrite orb_true_r.
  - destruct (str_eqb u (USER_NAME cfg)), (str_eqb p (PASSWORD cfg));
      reflexivity.
Qed.

Lemma fetch_basic (cfg : secrets) (request : Request.t) (x : jsstring) :
  pathname (Request.url request) = protected ->
  Authorization request = Some (lit "Basic " ++ x) ->
  fetch cfg request =
  Normal
    match fields x with
    | u :: p :: _ =>
        if str_eqb u (USER_NAME cfg) && str_eqb p (PASSWORD cfg)
        then Response_json [("userName"%string, Str u)]
        else unauthorized
    | _ => unauthorized
    end.
Proof.
  intros Hpath Hauth. rewrite (fetch_protected cfg request Hpath), Hauth.
  rewrite startsWith_app.
  change 6%nat with (List.length (lit "Basic ")).
  now rewrite slice_app.
Qed.

Lemma fetch_no_scheme (cfg : secrets) (request : Request.t) :
  pathname (Request.url request) = protected ->
  (forall x, Authorization request <> Some (lit "Basic " ++ x)) ->
  fetch cfg request = Normal unauthorized.
Proof.
  intros Hpath Hno. rewrite (fetch_protected cfg request Hpath).
  destruct (Authorization request) as [a|] eqn:Ha; [|reflexivity].
  destruct (startsWith a (lit "Basic ")) eqn:Hs; [|reflexivity].
  exfalso. apply (Hno (slice a (List.length (lit "Basic ")))).
  now rewrite <- (startsWith_inv a (lit "Basic ") Hs).
Qed.

Lemma fetch_other_path (cfg : secrets) (request : Request.t) :
  pathname (Request.url request) <> protected ->
  fetch cfg request = Normal not_found.
Proof.
  intros Hpath. unfold fetch.
  change (strict_eq (Str (pathname (Request.url request)))
            (Str (lit "/api/data")))
    with (str_eqb (pathname (Request.url request)) protected).
  apply str_eqb_neq in Hpath. now rewrite Hpath.
Qed.

(** A secret with a colon in it matches no request: every field of the split
    is free of colons. *)
Lemma colon_in_PASSWORD (cfg : secrets) (request : Request.t) :
  In colon (PASSWORD cfg) ->
  pathname (Request.url request) = protected ->
  fetch cfg request = Normal unauthorized.
Proof.
  intros Hin Hpath. rewrite (fetch_protected cfg request Hpath).
  destruct (Authorization request) as [a|]; [|reflexivity].
  destruct (startsWith a (lit "Basic ")); [|reflexivity].
  unfold fields.
  pose proof (split_fields colon (toString (Buffer_from (slice a 6)))) as F.
  destruct (split colon (toString (Buffer_from (slice a 6))))
    as [|u [|p rest]]; try reflexivity.
  inversion F as [|? ? _ F']; subst. inversion F' as [|? ? Hp _]; subst.
  destruct (str_eqb p (PASSWORD cfg)) eqn:E.
  - apply str_eqb_eq in E. subst p. contradiction.
  - now rewrite andb_false_r.
Qed.

(** Run on a store, the handler gives the store back as it was, with the
    completion of [fetch] at the store's bindings and request. *)
Lemma fetch_st_run (s : store) :
  fetch_st s = (fetch (bindings s) (request s), s).
Proof.
  unfold fetch_st, fetch, bind_js, ret, lift, request_url,
    request_headers_get, import_USER_NAME, import_PASSWORD.
  cbv beta iota.
  destruct (strict_eq (Str (pathname (Request.url (request s))))
              (Str (lit "/api/data"))); [|reflexivity].
  destruct (Headers_get (Request.headers (request s)) (lit "Authorization"))
    as [a|]; [|reflexivity].
  destruct a as [|c a]; [reflexivity|].
  cbn [not_ call bind].
  destruct (startsWith (c :: a) (lit "Basic ")); cbn [negb]; [|reflexivity].
  destruct (destructure2
              (split colon
                 (toString
                    (Buffer_from
                       (slice (c :: a) (List.length (lit "Basic ")))))))
    as [userName password].
  destruct (strict_neq userName (Str (USER_NAME (bindings s))));
    cbn [orb]; [reflexivity|].
  destruct (strict_neq password (Str (PASSWORD (bindings s)))); reflexivity.
Qed.

Lemma handle_fetch (cfg : secrets) (r : Request.t) :
  handle cfg r = (cfg, fetch cfg r).
Proof. unfold handle. now rewrite fetch_st_run. Qed.

(** A statement that deleted the header would not give the store back. *)
Lemma request_headers_delete_changes :
  snd (request_headers_delete (lit "Authorization")
         {| bindings := tom_1234;
            request := get_request protected (Some (lit "Basic dG9tOg==")) |})
  <> {| bindings := tom_1234;
        request := get_request protected (Some (lit "Basic dG9tOg==")) |}.
Proof. vm_compute. discriminate. Qed.

Lemma serve_map (cfg : secrets) (requests : list Request.t) :
  serve cfg requests = (cfg, map (fetch cfg) requests).
Proof.
  induction requests as [|r rs IH]; cbn [serve map]; [reflexivity|].
  now rewrite handle_fetch, IH.
Qed.

(** A payload that decodes to identity, colon, secret, neither with a colon
    of its own, is answered with the identity. *)
Lemma fetch_matching (cfg : secrets) (request : Request.t) (x : jsstring) :
  pathname (Request.url request) = protected ->
  Authorization request = Some (lit "Basic " ++ x) ->
  toString (Buffer_from x) = USER_NAME cfg ++ colon :: PASSWORD cfg ->
  ~ In colon (USER_NAME cfg) ->
  ~ In colon (PASSWORD cfg) ->
  fetch cfg request
  = Normal (Response_json [("userName"%string, Str (USER_NAME cfg))]).
Proof.
  intros Hpath Hauth Htext Hu Hp.
  rewrite (fetch_basic cfg request x Hpath Hauth).
  unfold fields. rewrite Htext.
  rewrite (split_app colon _ _ Hu), (split_no_sep colon _ Hp).
  now rewrite !str_eqb_refl.
Qed.

(** What the demo page sends: [btoa] of ASCII credentials. *)
Lemma btoa_authorized
  (cfg : secrets) (request : Request.t) (b64 : jsstring) :
  Forall (fun c => c < 128) (USER_NAME cfg ++ colon :: PASSWORD cfg) ->
  ~ In colon (USER_NAME cfg) ->
  ~ In colon (PASSWORD cfg) ->
  btoa (USER_NAME cfg ++ colon :: PASSWORD cfg) = Normal b64 ->
  pathname (Request.url request) = protected ->
  Authorization request = Some (lit "Basic " ++ b64) ->
  fetch cfg request
  = Normal (Response_json [("userName"%string, Str (USER_NAME cfg))]).
Proof.
  intros Hascii Hu Hp Hb Hpath Hauth.
  unfold btoa in Hb.
  destruct (forallb (fun c => c <? 256)
              (USER_NAME cfg ++ colon :: PASSWORD cfg)); [|discriminate].
  injection Hb as <-.
  apply (fetch_matching cfg request _ Hpath Hauth); [|assumption..].
  rewrite Buffer_from_base64_encode.
  - apply toString_ascii, Hascii.
  - unfold is_bytes. eapply Forall_impl; [|exact Hascii].
    intros c Hc. simpl in Hc. lia.
Qed.

Lemma scheme_dec (request : Request.t) :
  (exists x, Authorization request = Some (lit "Basic " ++ x))
  \/ (forall x, Authorization request <> Some (lit "Basic " ++ x)).
Proof.
  destruct (Authorization request) as [a|]; [|right; discriminate].
  destruct (startsWith a (lit "Basic ")) eqn:Hs.
  - left. exists (slice a (List.length (lit "Basic "))).
    now rewrite <- (startsWith_inv a (lit "Basic ") Hs).
  - right. intros x Hx.
    assert (Ha : a = lit "Basic " ++ x) by congruence.
    rewrite Ha, startsWith_app in Hs. discriminate.
Qed.


(** ** Properties of the handler *)

(** C1 (amended): on the protected path, for a payload with at most one colon,
    the response has status 200 if and only if the [Authorization] header is
    present, begins with ["Basic "], and its remainder decodes to exactly two
    colon-delimited fields equal to the configured identity and secret.
    Emptiness is not tested: the two fields are non-empty exactly when the
    configured ones are. *)
Theorem authorized_iff (cfg : secrets) (request : Request.t) :
  pathname (Request.url request) = protected ->
  (forall x, Authorization request = Some (lit "Basic " ++ x) ->
             (List.length (fields x) <= 2)%nat) ->
  (exists resp,
      fetch cfg request = Normal resp /\ Response.status resp = 200)
  <->
  (exists x, Authorization request = Some (lit "Basic " ++ x)
             /\ fields x = [USER_NAME cfg; PASSWORD cfg]).
Proof.
  intros Hpath Hlen. split.
  - intros (resp & Hresp & Hst).
    destruct (scheme_dec request) as [[x Hx]|Hno].
    + exists x. split; [exact Hx|].
      rewrite (fetch_basic cfg request x Hpath Hx) in Hresp.
      specialize (Hlen x Hx).
      destruct (fields x) as [|u [|p [|q rest]]].
      * injection Hresp as <-. discriminate.
      * injection Hresp as <-. discriminate.
      * destruct (str_eqb u (USER_NAME cfg)) eqn:Eu;
          [|injection Hresp as <-; discriminate].
        destruct (str_eqb p (PASSWORD cfg)) eqn:Ep;
          [|injection Hresp as <-; discriminate].
        apply str_eqb_eq in Eu, Ep. now subst.
      * simpl in Hlen. lia.
    + rewrite (fetch_no_scheme cfg request Hpath Hno) in Hresp.
      injection Hresp as <-. discriminate.
  - intros (x & Hx & Hf).
    rewrite (fetch_basic cfg request x Hpath Hx), Hf, !str_eqb_refl.
    eexists. split; reflexivity.
Qed.

(** C3 (amended): when neither the configured identity nor the configured
    secret contains a colon, a request to the protected path whose header is
    ["Basic "] followed by the base64 of bytes that read, as UTF-8, identity,
    colon, secret (for ASCII text, what [btoa] gives) is answered with status
    200, the JSON body [{"userName": identity}] and no challenge header. *)
Theorem correct_credentials_authorized
  (cfg : secrets) (request : Request.t) (bs : list N) :
  is_bytes bs ->
  toString bs = USER_NAME cfg ++ colon :: PASSWORD cfg ->
  ~ In colon (USER_NAME cfg) ->
  ~ In colon (PASSWORD cfg) ->
  pathname (Request.url request) = protected ->
  Authorization request = Some (lit "Basic " ++ base64_encode bs) ->
  exists resp,
    fetch cfg request = Normal resp
    /\ Response.status resp = 200
    /\ Response.body resp = Json [("userName"%string, USER_NAME cfg)]
    /\ Headers_get (Response.headers resp) (lit "WWW-Authenticate") = None.
Proof.
  intros Hbs Htext Hu Hp Hpath Hauth.
  rewrite (fetch_matching cfg request (base64_encode bs) Hpath Hauth);
    [|rewrite (Buffer_from_base64_encode bs Hbs); exact Htext|assumption..].
  eexists. repeat split; reflexivity.
Qed.

(** C4 (amended): when the configured identity and secret are both non-empty,
    a request to the protected path whose decoded identity is empty, or whose
    decoded secret is empty or missing, is answered 401, whatever the other
    field is.  The handler has no test of its own for empty fields: the 401
    is the one of a mismatch. *)
Theorem empty_field_unauthorized
  (cfg : secrets) (request : Request.t) (x : jsstring)
  (userName password : value) :
  USER_NAME cfg <> [] ->
  PASSWORD cfg <> [] ->
  pathname (Request.url request) = protected ->
  Authorization request = Some (lit "Basic " ++ x) ->
  destructure2 (fields x) = (userName, password) ->
  userName = Str [] \/ password = Str [] \/ password = Undefined ->
  fetch cfg request = Normal unauthorized
  /\ Response.status unauthorized = 401.
Proof.
  intros HU HP Hpath Hauth Hd Hempty. split; [|reflexivity].
  rewrite (fetch_basic cfg request x Hpath Hauth).
  destruct (fields x) as [|u [|p rest]]; try reflexivity.
  simpl in Hd. injection Hd as <- <-.
  destruct Hempty as [H|[H|H]]; try discriminate; injection H as ->.
  - destruct (USER_NAME cfg); [contradiction | reflexivity].
  - destruct (PASSWORD cfg); [contradiction|].
    simpl. now rewrite andb_false_r.
Qed.

(** C5: on the protected path, a request without [Authorization] header, or
    whose header does not begin with ["Basic "], is answered with status 401,
    no body and the header [WWW-Authenticate: Basic], which has no realm. *)
Theorem no_basic_scheme_unauthorized (cfg : secrets) (request : Request.t) :
  pathname (Request.url request) = protected ->
  Authorization request = None
  \/ (exists a, Authorization request = Some a
                /\ startsWith a (lit "Basic ") = false) ->
  fetch cfg request =
  Normal {| Response.status := 401;
            Response.headers := [(lit "WWW-Authenticate", lit "Basic")];
            Response.body := Null |}.
Proof.
  intros Hpath H. apply (fetch_no_scheme cfg request Hpath).
  intros x Hx. destruct H as [H|(a & Ha & Hs)].
  - congruence.
  - assert (Ha' : a = lit "Basic " ++ x) by congruence.
    rewrite Ha', startsWith_app in Hs. discriminate.
Qed.

(** C6 (amended): on the protected path, for every header ["Basic "] followed
    by any string, well-formed base64 or not, the handler returns a response
    and throws nothing; the string is decoded leniently, no decoding ever
    fails, and the response is the 401 one whenever the decoded text does not
    begin with the configured identity and secret as its fields. *)
Theorem any_payload_handled
  (cfg : secrets) (request : Request.t) (x : jsstring) :
  pathname (Request.url request) = protected ->
  Authorization request = Some (lit "Basic " ++ x) ->
  exists resp,
    fetch cfg request = Normal resp
    /\ ((forall rest, fields x <> USER_NAME cfg :: PASSWORD cfg :: rest) ->
        resp = unauthorized).
Proof.
  intros Hpath Hauth. rewrite (fetch_basic cfg request x Hpath Hauth).
  eexists. split; [reflexivity|]. intros Hno.
  destruct (fields x) as [|u [|p rest]]; try reflexivity.
  destruct (str_eqb u (USER_NAME cfg)) eqn:Eu; [|reflexivity].
  destruct (str_eqb p (PASSWORD cfg)) eqn:Ep; [|reflexivity].
  apply str_eqb_eq in Eu, Ep. subst. now destruct (Hno rest).
Qed.

(** C7: a request whose path is not the protected one is answered with status
    404, no body and no [WWW-Authenticate] header, whatever its headers. *)
Theorem other_path_not_found (cfg : secrets) (request : Request.t) :
  pathname (Request.url request) <> protected ->
  exists resp,
    fetch cfg request = Normal resp
    /\ Response.status resp = 404
    /\ Response.body resp = Null
    /\ Headers_get (Response.headers resp) (lit "WWW-Authenticate") = None.
Proof.
  intros Hpath. rewrite (fetch_other_path cfg request Hpath).
  eexists. repeat split; reflexivity.
Qed.

(** C8: run on any store, the handler leaves the module's bindings and the
    request as they were; hence serving leaves the bindings as they were, and
    a request that arrives twice, with any requests before, between and
    after, gets the same response both times: the one the handler gives it
    on its own. *)
Theorem serve_stateless
  (cfg : secrets) (before between after : list Request.t) (r : Request.t) :
  (forall s : store, snd (fetch_st s) = s)
  /\ fst (serve cfg (before ++ r :: between ++ r :: after)) = cfg
  /\ nth_error (snd (serve cfg (before ++ r :: between ++ r :: after)))
       (List.length before)
     = Some (fst (fetch_st {| bindings := cfg; request := r |}))
  /\ nth_error (snd (serve cfg (before ++ r :: between ++ r :: after)))
       (List.length before + S (List.length between))
     = Some (fst (fetch_st {| bindings := cfg; request := r |})).
Proof.
  split; [intros s; now rewrite fetch_st_run|].
  rewrite serve_map, fetch_st_run. cbn [fst snd bindings request].
  split; [reflexivity|].
  rewrite map_app. cbn [map]. rewrite map_app. cbn [map].
  split.
  - rewrite nth_error_app2; rewrite length_map; [|lia].
    now rewrite Nat.sub_diag.
  - rewrite nth_error_app2; rewrite length_map; [|lia].
    replace (List.length before + S (List.length between)
             - List.length before)%nat
      with (S (List.length between)) by lia.
    cbn [nth_error].
    rewrite nth_error_app2; rewrite length_map; [|lia].
    now rewrite Nat.sub_diag.
Qed.

(** C9: two requests with the same pathname and the same value of the
    [Authorization] header get the same response, whatever their method,
    their other headers and their query string. *)
Theorem response_of_path_and_header (cfg : secrets) (r1 r2 : Request.t) :
  pathname (Request.url r1) = pathname (Request.url r2) ->
  Authorization r1 = Authorization r2 ->
  fetch cfg r1 = fetch cfg r2.
Proof.
  intros Hpath Hauth.
  destruct (str_eqb (pathname (Request.url r1)) protected) eqn:E.
  - apply str_eqb_eq in E.
    rewrite (fetch_protected cfg r1 E).
    rewrite Hpath in E. rewrite (fetch_protected cfg r2 E).
    now rewrite Hauth.
  - apply str_eqb_neq in E.
    rewrite (fetch_other_path cfg r1 E).
    rewrite Hpath in E. now rewrite (fetch_other_path cfg r2 E).
Qed.

(** C10: for every configuration and every request the handler returns a
    response, with status 200, 401 or 404, and throws nothing. *)
Theorem fetch_total (cfg : secrets) (request : Request.t) :
  exists resp,
    fetch cfg request = Normal resp
    /\ (Response.status resp = 200
        \/ Response.status resp = 401
        \/ Response.status resp = 404).
Proof.
  destruct (str_eqb (pathname (Request.url request)) protected) eqn:E.
  - apply str_eqb_eq in E. rewrite (fetch_protected cfg request E).
    eexists. split; [reflexivity|].
    destruct (Authorization request) as [a|]; [|now right; left].
    destruct (startsWith a (lit "Basic ")); [|now right; left].
    destruct (fields (slice a 6)) as [|u [|p rest]]; try (now right; left).
    destruct (str_eqb u (USER_NAME cfg) && str_eqb p (PASSWORD cfg));
      [now left | now right; left].
  - apply str_eqb_neq in E. rewrite (fetch_other_path cfg request E).
    eexists. split; [reflexivity | now right; right].
Qed.

(** A payload without colon has one field: the secret is [undefined], which
    equals no configured secret. *)
Lemma no_colon_unauthorized
  (cfg : secrets) (request : Request.t) (x : jsstring) :
  pathname (Request.url request) = protected ->
  Authorization request = Some (lit "Basic " ++ x) ->
  ~ In colon (toString (Buffer_from x)) ->
  destructure2 (fields x) = (Str (toString (Buffer_from x)), Undefined)
  /\ fetch cfg request = Normal unauthorized.
Proof.
  intros Hpath Hauth Hno.
  rewrite (fetch_basic cfg request x Hpath Hauth). unfold fields.
  rewrite (split_no_sep colon _ Hno). split; reflexivity.
Qed.

(** C2 (the handler at a payload with two colons): with the credentials of
    the README, the payload [tom:1234:x] is split at both colons and the third
    field is dropped, so that the secret compared is [1234], not [1234:x],
    and the request is answered 200. *)
Theorem secret_cut_at_second_colon :
  toString (Buffer_from (lit "dG9tOjEyMzQ6eA==")) = lit "tom:1234:x"
  /\ destructure2 (fields (lit "dG9tOjEyMzQ6eA=="))
     = (Str (lit "tom"), Str (lit "1234"))
  /\ fetch tom_1234
       (get_request protected (Some (lit "Basic dG9tOjEyMzQ6eA==")))
     = Normal {| Response.status := 200;
                 Response.headers := json_headers;
                 Response.body := Json [("userName"%string, lit "tom")] |}.
Proof. repeat split; vm_compute; reflexivity. Qed.

(** C1, as stated, fails: with an empty configured secret, the header for
    [tom:] decodes to the identity and an empty secret, and is answered
    200. *)
Lemma authorized_with_empty_secret :
  fields (lit "dG9tOg==") = [lit "tom"; []]
  /\ fetch {| USER_NAME := lit "tom"; PASSWORD := [] |}
       (get_request protected (Some (lit "Basic dG9tOg==")))
     = Normal {| Response.status := 200;
                 Response.headers := json_headers;
                 Response.body := Json [("userName"%string, lit "tom")] |}.
Proof. split; vm_compute; reflexivity. Qed.

(** C3, as stated, fails: with the configured identity [to:m] and secret
    [1234], the header that [btoa] gives for identity, colon, secret is
    answered 401. *)
Lemma identity_with_colon_rejected :
  btoa (lit "to:m" ++ colon :: lit "1234") = Normal (lit "dG86bToxMjM0")
  /\ fetch {| USER_NAME := lit "to:m"; PASSWORD := lit "1234" |}
       (get_request protected (Some (lit "Basic dG86bToxMjM0")))
     = Normal {| Response.status := 401;
                 Response.headers := [(lit "WWW-Authenticate", lit "Basic")];
                 Response.body := Null |}.
Proof. split; vm_compute; reflexivity. Qed.

(** C4, as stated, fails: with an empty configured identity and the secret
    [1234], the header for [:1234] decodes to an empty identity and is
    answered 200. *)
Lemma empty_identity_authorized :
  destructure2 (fields (lit "OjEyMzQ=")) = (Str [], Str (lit "1234"))
  /\ fetch {| USER_NAME := []; PASSWORD := lit "1234" |}
       (get_request protected (Some (lit "Basic OjEyMzQ=")))
     = Normal {| Response.status := 200;
                 Response.headers := json_headers;
                 Response.body := Json [("userName"%string, [])] |}.
Proof. split; vm_compute; reflexivity. Qed.

(** C6, as stated, fails: [dG9t OjEyMzQ=] has a space in it and is not
    well-formed base64, yet the decoder skips the space, the text is
    [tom:1234] and the request is answered 200. *)
Lemma malformed_base64_authorized :
  well_formed_base64 (lit "dG9t OjEyMzQ=") = false
  /\ toString (Buffer_from (lit "dG9t OjEyMzQ=")) = lit "tom:1234"
  /\ fetch tom_1234
       (get_request protected (Some (lit "Basic dG9t OjEyMzQ=")))
     = Normal {| Response.status := 200;
                 Response.headers := json_headers;
                 Response.body := Json [("userName"%string, lit "tom")] |}.
Proof. repeat split; vm_compute; reflexivity. Qed.

(** The five requests of the README, with its credentials. *)
Lemma README_scenarios :
  fetch tom_1234 (get_request protected None) = Normal unauthorized
  /\ fetch tom_1234 (get_request protected (Some (lit "Basic dG9tOjEyMzQ=")))
     = Normal (Response_json [("userName"%string, Str (lit "tom"))])
  /\ fetch tom_1234 (get_request protected (Some (lit "Basic dG9tOg==")))
     = Normal unauthorized
  /\ fetch tom_1234
       (get_request protected (Some (lit "Basic d3Jvbmc6MTIzNA==")))
     = Normal unauthorized
  /\ fetch tom_1234
       (get_request (lit "/other/path") (Some (lit "Basic dG9tOjEyMzQ=")))
     = Normal not_found.
Proof. repeat split; vm_compute; reflexivity. Qed.

(** ** The theorems at the requests of the README *)


Lemma authorized_iff_witness :
  pathname (Request.url
              (get_request protected (Some (lit "Basic dG9tOjEyMzQ="))))
  = protected
  /\ ((exists resp,
          fetch tom_1234
            (get_request protected (Some (lit "Basic dG9tOjEyMzQ=")))
          = Normal resp /\ Response.status resp = 200)
      <->
      (exists x,
          Authorization
            (get_request protected (Some (lit "Basic dG9tOjEyMzQ=")))
          = Some (lit "Basic " ++ x)
          /\ fields x = [USER_NAME tom_1234; PASSWORD tom_1234])).
Proof.
  split; [reflexivity|].
  apply (authorized_iff tom_1234
           (get_request protected (Some (lit "Basic dG9tOjEyMzQ=")))).
  - reflexivity.
  - intros x Hx.
    assert (E : x = lit "dG9tOjEyMzQ=").
    { vm_compute in Hx. injection Hx as <-. reflexivity. }
    rewrite E. vm_compute. repeat constructor.
Defined.

Lemma correct_credentials_authorized_witness :
  is_bytes (lit "tom:1234")
  /\ toString (lit "tom:1234") = USER_NAME tom_1234 ++ colon :: PASSWORD tom_1234
  /\ exists resp,
       fetch tom_1234 (get_request protected (Some (lit "Basic dG9tOjEyMzQ=")))
       = Normal resp
       /\ Response.status resp = 200
       /\ Response.body resp = Json [("userName"%string, lit "tom")]
       /\ Headers_get (Response.headers resp) (lit "WWW-Authenticate") = None.
Proof.
  assert (B : is_bytes (lit "tom:1234")).
  { unfold is_bytes. vm_compute lit. repeat (constructor; [reflexivity|]).
    constructor. }
  split; [exact B|]. split; [reflexivity|].
  apply (correct_credentials_authorized tom_1234
           (get_request protected (Some (lit "Basic dG9tOjEyMzQ=")))
           (lit "tom:1234")).
  - exact B.
  - reflexivity.
  - no_colon.
  - no_colon.
  - reflexivity.
  - reflexivity.
Defined.

Lemma empty_field_unauthorized_witness :
  destructure2 (fields (lit "dG9tOg==")) = (Str (lit "tom"), Str [])
  /\ fetch tom_1234 (get_request protected (Some (lit "Basic dG9tOg==")))
     = Normal unauthorized
  /\ Response.status unauthorized = 401.
Proof.
  split; [reflexivity|].
  apply (empty_field_unauthorized tom_1234
           (get_request protected (Some (lit "Basic dG9tOg==")))
           (lit "dG9tOg==") (Str (lit "tom")) (Str [])).
  - discriminate.
  - discriminate.
  - reflexivity.
  - reflexivity.
  - reflexivity.
  - right. left. reflexivity.
Defined.

Lemma no_basic_scheme_unauthorized_witness :
  startsWith (lit "Bearer xyz") (lit "Basic ") = false
  /\ fetch tom_1234 (get_request protected (Some (lit "Bearer xyz")))
     = Normal {| Response.status := 401;
                 Response.headers := [(lit "WWW-Authenticate", lit "Basic")];
                 Response.body := Null |}.
Proof.
  split; [reflexivity|].
  apply (no_basic_scheme_unauthorized tom_1234
           (get_request protected (Some (lit "Bearer xyz")))).
  - reflexivity.
  - right. exists (lit "Bearer xyz"). split; reflexivity.
Defined.

Lemma any_payload_handled_witness :
  well_formed_base64 (lit "@@@") = false
  /\ exists resp,
       fetch tom_1234 (get_request protected (Some (lit "Basic @@@")))
       = Normal resp
       /\ ((forall rest,
               fields (lit "@@@")
               <> USER_NAME tom_1234 :: PASSWORD tom_1234 :: rest) ->
           resp = unauthorized).
Proof.
  split; [reflexivity|].
  apply (any_payload_handled tom_1234
           (get_request protected (Some (lit "Basic @@@"))) (lit "@@@")).
  - reflexivity.
  - reflexivity.
Defined.

Lemma other_path_not_found_witness :
  lit "/other/path" <> protected
  /\ exists resp,
       fetch tom_1234
         (get_request (lit "/other/path") (Some (lit "Basic dG9tOjEyMzQ=")))
       = Normal resp
       /\ Response.status resp = 404
       /\ Response.body resp = Null
       /\ Headers_get (Response.headers resp) (lit "WWW-Authenticate") = None.
Proof.
  assert (D : lit "/other/path" <> protected) by (vm_compute; discriminate).
  split; [exact D|].
  apply (other_path_not_found tom_1234
           (get_request (lit "/other/path")
              (Some (lit "Basic dG9tOjEyMzQ=")))).
  exact D.
Defined.


Lemma response_of_path_and_header_witness :
  post_with_query
  <> get_request protected (Some (lit "Basic dG9tOjEyMzQ="))
  /\ fetch tom_1234 post_with_query
     = fetch tom_1234
         (get_request protected (Some (lit "Basic dG9tOjEyMzQ="))).
Proof.
  split; [vm_compute; discriminate|].
  apply (response_of_path_and_header tom_1234 post_with_query
           (get_request protected (Some (lit "Basic dG9tOjEyMzQ=")))).
  - reflexivity.
  - reflexivity.
Defined.

(** ** Further properties: splitting *)

(** X1: joining the fields of a split with the separator gives the string
    back. *)
Theorem join_split (sep : code_unit) (s : jsstring) :
  join sep (split sep s) = s.
Proof.
  induction s as [|c s IH]; [reflexivity|].
  simpl split. destruct (N.eqb_spec c sep) as [->|Hne].
  - pose proof (split_not_nil sep s) as Hnil.
    simpl. destruct (split sep s) as [|f fs]; [contradiction|].
    now rewrite IH.
  - pose proof (split_not_nil sep s) as Hnil.
    destruct (split sep s) as [|f fs]; [contradiction|].
    destruct fs as [|g fs]; simpl in *; now rewrite <- IH.
Qed.

(** X2: a split has one field more than the string has separators. *)
Theorem split_length (sep : code_unit) (s : jsstring) :
  List.length (split sep s) = S (count_occ N.eq_dec s sep).
Proof.
  induction s as [|c s IH]; [reflexivity|].
  simpl. destruct (N.eqb_spec c sep) as [->|Hne].
  - destruct (N.eq_dec sep sep); [|contradiction]. simpl. now rewrite IH.
  - destruct (N.eq_dec c sep); [contradiction|].
    pose proof (split_not_nil sep s) as Hnil.
    destruct (split sep s) as [|f fs]; [contradiction|].
    simpl in *. exact IH.
Qed.

(** The first field is the text before the first separator. *)
Lemma split_head (sep : code_unit) (t u : jsstring) (fs : list jsstring) :
  split sep t = u :: fs ->
  (fs = [] /\ t = u)
  \/ (exists t', t = u ++ sep :: t' /\ split sep t' = fs).
Proof.
  revert u fs. induction t as [|c t IH]; intros u fs H.
  - simpl in H. injection H as <- <-. now left.
  - simpl in H. destruct (N.eqb_spec c sep) as [->|Hne].
    + injection H as <- <-. right. exists t. now split.
    + pose proof (split_not_nil sep t) as Hnil.
      destruct (split sep t) as [|f fs'] eqn:E; [contradiction|].
      injection H as <- <-.
      destruct (IH f fs' eq_refl) as [[-> ->]|(t' & -> & Ht')].
      * now left.
      * right. exists t'. now split.
Qed.

Lemma split_two_fields (sep : code_unit) (t u p : jsstring)
  (rest : list jsstring) :
  split sep t = u :: p :: rest ->
  exists tail, t = u ++ sep :: p ++ tail
               /\ (rest = [] -> tail = []).
Proof.
  intros H.
  destruct (split_head sep t u _ H) as [[E _]|(t' & -> & Ht')];
    [discriminate|].
  destruct (split_head sep t' p _ Ht') as [[-> ->]|(t'' & -> & Ht'')].
  - exists []. split; [now rewrite app_nil_r | reflexivity].
  - exists (sep :: t''). split; [reflexivity|].
    intros ->. now destruct (split_not_nil sep t'').
Qed.

(** ** Further properties: the handler of [index.ts] *)

(** X3: the handler has three responses only: 200 with the configured user
    name as JSON and the content type of JSON as its one header, 401 with
    the challenge and no body, 404 with neither header nor body.  A decoded
    name other than the configured one is never sent back. *)
Theorem fetch_three_responses (cfg : secrets) (request : Request.t) :
  fetch cfg request
  = Normal {| Response.status := 200;
              Response.headers := json_headers;
              Response.body := Json [("userName"%string, USER_NAME cfg)] |}
  \/ fetch cfg request
     = Normal {| Response.status := 401;
                 Response.headers := [(lit "WWW-Authenticate", lit "Basic")];
                 Response.body := Null |}
  \/ fetch cfg request
     = Normal {| Response.status := 404;
                 Response.headers := [];
                 Response.body := Null |}.
Proof.
  destruct (str_eqb (pathname (Request.url request)) protected) eqn:E.
  - apply str_eqb_eq in E. rewrite (fetch_protected cfg request E).
    destruct (Authorization request) as [a|]; [|now right; left].
    destruct (startsWith a (lit "Basic ")); [|now right; left].
    destruct (fields (slice a 6)) as [|u [|p rest]]; try (now right; left).
    destruct (str_eqb u (USER_NAME cfg)) eqn:Eu; [|now right; left].
    destruct (str_eqb p (PASSWORD cfg)); [|now right; left].
    apply str_eqb_eq in Eu. subst u. now left.
  - apply str_eqb_neq in E. rewrite (fetch_other_path cfg request E).
    now right; right.
Qed.

(** X4: on the protected path the response depends on the first two fields
    of the decoded payload only: whatever follows a second colon is
    ignored. *)
Theorem fields_after_second_ignored
  (cfg : secrets) (r1 r2 : Request.t) (x1 x2 : jsstring) :
  pathname (Request.url r1) = protected ->
  pathname (Request.url r2) = protected ->
  Authorization r1 = Some (lit "Basic " ++ x1) ->
  Authorization r2 = Some (lit "Basic " ++ x2) ->
  firstn 2 (fields x1) = firstn 2 (fields x2) ->
  fetch cfg r1 = fetch cfg r2.
Proof.
  intros P1 P2 A1 A2 H.
  rewrite (fetch_basic cfg r1 x1 P1 A1), (fetch_basic cfg r2 x2 P2 A2).
  destruct (fields x1) as [|u1 [|p1 rest1]],
           (fields x2) as [|u2 [|p2 rest2]];
    simpl in H; try discriminate; try reflexivity.
  injection H as -> ->. reflexivity.
Qed.

(** X5: when the configured user name or the configured password contains a
    colon, every request to the protected path is answered 401: no header
    logs in. *)
Theorem colon_in_credentials_locks_out
  (cfg : secrets) (request : Request.t) :
  In colon (USER_NAME cfg) \/ In colon (PASSWORD cfg) ->
  pathname (Request.url request) = protected ->
  fetch cfg request = Normal unauthorized.
Proof.
  intros Hin Hpath. rewrite (fetch_protected cfg request Hpath).
  destruct (Authorization request) as [a|]; [|reflexivity].
  destruct (startsWith a (lit "Basic ")); [|reflexivity].
  unfold fields.
  pose proof (split_fields colon (toString (Buffer_from (slice a 6)))) as F.
  destruct (split colon (toString (Buffer_from (slice a 6))))
    as [|u [|p rest]]; try reflexivity.
  inversion F as [|? ? Hu F']; subst. inversion F' as [|? ? Hp _]; subst.
  destruct (str_eqb u (USER_NAME cfg)) eqn:Eu; [|reflexivity].
  destruct (str_eqb p (PASSWORD cfg)) eqn:Ep; [|reflexivity].
  apply str_eqb_eq in Eu, Ep. subst. destruct Hin; contradiction.
Qed.

Lemma fetch_same_inputs (cfg : secrets) (r1 r2 : Request.t) :
  pathname (Request.url r1) = pathname (Request.url r2) ->
  Authorization r1 = Authorization r2 ->
  fetch cfg r1 = fetch cfg r2.
Proof.
  intros Hpath Hauth.
  destruct (str_eqb (pathname (Request.url r1)) protected) eqn:E.
  - apply str_eqb_eq in E. rewrite (fetch_protected cfg r1 E).
    rewrite Hpath in E. now rewrite (fetch_protected cfg r2 E), Hauth.
  - apply str_eqb_neq in E. rewrite (fetch_other_path cfg r1 E).
    rewrite Hpath in E. now rewrite (fetch_other_path cfg r2 E).
Qed.

Lemma fetch_same_buffer
  (cfg : secrets) (r1 r2 : Request.t) (x1 x2 : jsstring) :
  pathname (Request.url r1) = protected ->
  pathname (Request.url r2) = protected ->
  Authorization r1 = Some (lit "Basic " ++ x1) ->
  Authorization r2 = Some (lit "Basic " ++ x2) ->
  Buffer_from x1 = Buffer_from x2 ->
  fetch cfg r1 = fetch cfg r2.
Proof.
  intros P1 P2 A1 A2 H.
  rewrite (fetch_basic cfg r1 x1 P1 A1), (fetch_basic cfg r2 x2 P2 A2).
  unfold fields. now rewrite H.
Qed.

(** ** Further properties: what the decoder lets through *)

Lemma space_skipped (c : code_unit) :
  is_space c = true -> unbase64 c = None /\ (c =? pad) = false.
Proof.
  unfold is_space. rewrite !orb_true_iff, !N.eqb_eq.
  intros [[[->| ->]| ->]| ->]; split; reflexivity.
Qed.

Lemma sextets_without_spaces (s : jsstring) :
  sextets (filter (fun c => negb (is_space c)) s) = sextets s.
Proof.
  induction s as [|c s IH]; [reflexivity|].
  simpl filter. destruct (is_space c) eqn:E; simpl negb.
  - destruct (space_skipped c E) as [Hu Hp].
    simpl sextets. now rewrite Hu, Hp.
  - simpl sextets. now rewrite IH.
Qed.

(** X6: white space in the payload is skipped: a header and the same header
    with the spaces, tabs and line ends of its payload taken out get the same
    response. *)
Theorem white_space_ignored
  (cfg : secrets) (r1 r2 : Request.t) (x : jsstring) :
  pathname (Request.url r1) = protected ->
  pathname (Request.url r2) = protected ->
  Authorization r1 = Some (lit "Basic " ++ x) ->
  Authorization r2
  = Some (lit "Basic " ++ filter (fun c => negb (is_space c)) x) ->
  fetch cfg r1 = fetch cfg r2.
Proof.
  intros P1 P2 A1 A2.
  apply (fetch_same_buffer cfg r1 r2 _ _ P1 P2 A1 A2).
  unfold Buffer_from. now rewrite sextets_without_spaces.
Qed.

Lemma base64_char_not_pad (v : N) :
  v < 64 -> (base64_char v =? pad) = false.
Proof.
  intros H.
  assert (C : negb (base64_char v =? pad) = true).
  { revert v H. apply (check1 64). vm_compute. reflexivity. }
  now apply negb_true_iff in C.
Qed.

Lemma sextets_unpadded (bs : list N) :
  is_bytes bs ->
  sextets (unpadded (base64_encode bs)) = sextets (base64_encode bs).
Proof.
  unfold is_bytes, unpadded.
  induction bs as [|x|x y|x y z r IH] using bytes_ind3; intros H.
  - reflexivity.
  - inversion H as [|? ? Hx _]; subst.
    assert (H0 : 0 < 256) by lia.
    change (base64_encode [x])
      with [base64_char (sextet1 x); base64_char (sextet2 x 0); pad; pad].
    cbn [filter].
    rewrite (base64_char_not_pad _ (sextet1_lt x Hx)).
    rewrite (base64_char_not_pad _ (sextet2_lt x 0 Hx H0)).
    rewrite N.eqb_refl. cbn [negb].
    rewrite !(sextets_char _ _ (sextet1_lt x Hx)).
    rewrite !(sextets_char _ _ (sextet2_lt x 0 Hx H0)).
    reflexivity.
  - inversion H as [|? ? Hx H']; subst.
    inversion H' as [|? ? Hy _]; subst.
    assert (H0 : 0 < 256) by lia.
    change (base64_encode [x; y])
      with [base64_char (sextet1 x); base64_char (sextet2 x y);
            base64_char (sextet3 y 0); pad].
    cbn [filter].
    rewrite (base64_char_not_pad _ (sextet1_lt x Hx)).
    rewrite (base64_char_not_pad _ (sextet2_lt x y Hx Hy)).
    rewrite (base64_char_not_pad _ (sextet3_lt y 0 Hy H0)).
    rewrite N.eqb_refl. cbn [negb].
    rewrite !(sextets_char _ _ (sextet1_lt x Hx)).
    rewrite !(sextets_char _ _ (sextet2_lt x y Hx Hy)).
    rewrite !(sextets_char _ _ (sextet3_lt y 0 Hy H0)).
    reflexivity.
  - inversion H as [|? ? Hx H']; subst.
    inversion H' as [|? ? Hy H'']; subst.
    inversion H'' as [|? ? Hz Hr]; subst.
    rewrite (sextets_base64_encode_group x y z r Hx Hy Hz).
    change (base64_encode (x :: y :: z :: r))
      with (base64_char (sextet1 x) :: base64_char (sextet2 x y)
            :: base64_char (sextet3 y z) :: base64_char (sextet4 z)
            :: base64_encode r).
    cbn [filter].
    rewrite (base64_char_not_pad _ (sextet1_lt x Hx)).
    rewrite (base64_char_not_pad _ (sextet2_lt x y Hx Hy)).
    rewrite (base64_char_not_pad _ (sextet3_lt y z Hy Hz)).
    rewrite (base64_char_not_pad _ (sextet4_lt z Hz)).
    cbn [negb].
    rewrite (sextets_char _ _ (sextet1_lt x Hx)).
    rewrite (sextets_char _ _ (sextet2_lt x y Hx Hy)).
    rewrite (sextets_char _ _ (sextet3_lt y z Hy Hz)).
    rewrite (sextets_char _ _ (sextet4_lt z Hz)).
    now rewrite (IH Hr).
Qed.

(** X7: the padding is optional: base64 text with its ['='] taken off decodes
    to the same bytes, and a header that carries it gets the same response as
    the padded one. *)
Theorem padding_optional
  (cfg : secrets) (r1 r2 : Request.t) (bs : list N) :
  is_bytes bs ->
  pathname (Request.url r1) = protected ->
  pathname (Request.url r2) = protected ->
  Authorization r1 = Some (lit "Basic " ++ base64_encode bs) ->
  Authorization r2 = Some (lit "Basic " ++ unpadded (base64_encode bs)) ->
  Buffer_from (unpadded (base64_encode bs)) = bs
  /\ fetch cfg r1 = fetch cfg r2.
Proof.
  intros Hbs P1 P2 A1 A2.
  assert (E : Buffer_from (unpadded (base64_encode bs))
              = Buffer_from (base64_encode bs)).
  { unfold Buffer_from. now rewrite (sextets_unpadded bs Hbs). }
  split.
  - now rewrite E, (Buffer_from_base64_encode bs Hbs).
  - apply (fetch_same_buffer cfg r1 r2 _ _ P1 P2 A1 A2). now rewrite E.
Qed.

Lemma urlsafe_same (c : code_unit) :
  unbase64 (urlsafe c) = unbase64 c /\ (urlsafe c =? pad) = (c =? pad).
Proof.
  unfold urlsafe.
  destruct (N.eqb_spec c 43) as [->|H43]; [split; reflexivity|].
  destruct (N.eqb_spec c 47) as [->|H47]; split; reflexivity.
Qed.

Lemma sextets_urlsafe (s : jsstring) :
  sextets (map urlsafe s) = sextets s.
Proof.
  induction s as [|c s IH]; [reflexivity|].
  cbn [map sextets]. destruct (urlsafe_same c) as [-> ->].
  now rewrite IH.
Qed.

(** X8: the URL-safe alphabet is read like the standard one: a payload with
    ['-'] for ['+'] and ['_'] for ['/'] gets the same response. *)
Theorem urlsafe_alphabet_accepted
  (cfg : secrets) (r1 r2 : Request.t) (x : jsstring) :
  pathname (Request.url r1) = protected ->
  pathname (Request.url r2) = protected ->
  Authorization r1 = Some (lit "Basic " ++ x) ->
  Authorization r2 = Some (lit "Basic " ++ map urlsafe x) ->
  fetch cfg r1 = fetch cfg r2.
Proof.
  intros P1 P2 A1 A2.
  apply (fetch_same_buffer cfg r1 r2 _ _ P1 P2 A1 A2).
  unfold Buffer_from. now rewrite sextets_urlsafe.
Qed.

(** ** Further properties: header names *)

Lemma lower_idempotent (c : code_unit) : lower (lower c) = lower c.
Proof.
  unfold lower.
  destruct ((65 <=? c) && (c <=? 90)) eqn:E; [|now rewrite E].
  apply andb_true_iff in E as [E1 E2].
  apply N.leb_le in E1, E2.
  assert (F : (c + 32 <=? 90) = false) by (apply N.leb_gt; lia).
  now rewrite F, andb_false_r.
Qed.

Lemma name_eqb_lower (n name : jsstring) :
  name_eqb (map lower n) name = name_eqb n name.
Proof.
  unfold name_eqb. rewrite map_map.
  now rewrite (map_ext _ _ lower_idempotent).
Qed.

Lemma Headers_get_values (h1 h2 : Headers) (name : jsstring) :
  map snd (filter (fun nv => name_eqb (fst nv) name) h1)
  = map snd (filter (fun nv => name_eqb (fst nv) name) h2) ->
  Headers_get h1 name = Headers_get h2 name.
Proof.
  unfold Headers_get.
  generalize (filter (fun nv => name_eqb (fst nv) name) h1) as l1.
  generalize (filter (fun nv => name_eqb (fst nv) name) h2) as l2.
  intros l2 l1 H.
  destruct l1 as [|[n1 v1] l1], l2 as [|[n2 v2] l2];
    simpl in H; try discriminate; [reflexivity|].
  injection H as -> H. f_equal.
  revert l2 v2 H. induction l1 as [|[m1 w1] l1 IH]; intros [|[m2 w2] l2] v H;
    simpl in H; try discriminate; [reflexivity|].
  injection H as -> H. simpl. now apply IH.
Qed.

(** X9: header names are read without regard to case: with all the names of
    a request in lower case, [headers.get] finds the same value under every
    name and the handler gives the same response. *)
Theorem header_names_case_insensitive
  (cfg : secrets) (request : Request.t) (name : jsstring) :
  Headers_get (lower_names (Request.headers request)) name
  = Headers_get (Request.headers request) name
  /\ fetch cfg (with_headers request (lower_names (Request.headers request)))
     = fetch cfg request.
Proof.
  assert (G : forall nm,
             Headers_get (lower_names (Request.headers request)) nm
             = Headers_get (Request.headers request) nm).
  { intros nm. apply Headers_get_values. unfold lower_names.
    induction (Request.headers request) as [|[n v] h IH]; [reflexivity|].
    cbn [map filter fst snd]. rewrite name_eqb_lower.
    destruct (name_eqb n nm); cbn [map snd]; now rewrite IH. }
  split; [apply G|].
  apply fetch_same_inputs; [reflexivity|].
  unfold Authorization. cbn [with_headers Request.headers]. apply G.
Qed.

(** ** Further properties: [btoa] *)

Lemma btoa_Normal (s b64 : jsstring) :
  btoa s = Normal b64 -> is_bytes s /\ b64 = base64_encode s.
Proof.
  unfold btoa. destruct (forallb (fun c => c <? 256) s) eqn:E; [|discriminate].
  intros H. injection H as <-. split; [|reflexivity].
  unfold is_bytes. apply Forall_forall. intros c Hc.
  rewrite forallb_forall in E. now apply N.ltb_lt, E.
Qed.

(** X10: what [btoa] writes, [Buffer.from(_, 'base64')] reads back: the
    bytes of the buffer are the code units of the string. *)
Theorem Buffer_from_btoa (s b64 : jsstring) :
  btoa s = Normal b64 -> Buffer_from b64 = s.
Proof.
  intros H. destruct (btoa_Normal s b64 H) as [Hb ->].
  apply Buffer_from_base64_encode, Hb.
Qed.

Lemma standard_base64_char (v : N) :
  v < 64 -> standard_char (base64_char v) = true.
Proof.
  revert v. apply (check1 64). vm_compute. reflexivity.
Qed.

Lemma well_formed_group (a b c d : code_unit) (r : jsstring) :
  standard_char a = true -> standard_char b = true ->
  standard_char c = true -> standard_char d = true ->
  well_formed_base64 r = true ->
  well_formed_base64 (a :: b :: c :: d :: r) = true.
Proof.
  intros Ha Hb Hc Hd Hr. destruct r as [|e r].
  - simpl. now rewrite Ha, Hb, Hc, Hd.
  - cbn [well_formed_base64]. cbn [well_formed_base64] in Hr.
    now rewrite Ha, Hb, Hc, Hd, Hr.
Qed.

(** X11: the text [btoa] returns is well-formed standard base64, four
    characters for every three code units or part of three. *)
Theorem btoa_well_formed (s b64 : jsstring) :
  btoa s = Normal b64 ->
  well_formed_base64 b64 = true
  /\ List.length b64 = (4 * ((List.length s + 2) / 3))%nat.
Proof.
  intros H. destruct (btoa_Normal s b64 H) as [Hb ->]. clear H.
  unfold is_bytes in Hb. revert Hb.
  induction s as [|x|x y|x y z r IH] using bytes_ind3; intros H.
  - split; reflexivity.
  - inversion H as [|? ? Hx _]; subst.
    assert (H0 : 0 < 256) by lia.
    split; [|reflexivity].
    change (base64_encode [x])
      with [base64_char (sextet1 x); base64_char (sextet2 x 0); pad; pad].
    cbn [well_formed_base64].
    rewrite (standard_base64_char _ (sextet1_lt x Hx)).
    rewrite (standard_base64_char _ (sextet2_lt x 0 Hx H0)).
    rewrite N.eqb_refl. now rewrite orb_true_r.
  - inversion H as [|? ? Hx H']; subst.
    inversion H' as [|? ? Hy _]; subst.
    assert (H0 : 0 < 256) by lia.
    split; [|reflexivity].
    change (base64_encode [x; y])
      with [base64_char (sextet1 x); base64_char (sextet2 x y);
            base64_char (sextet3 y 0); pad].
    cbn [well_formed_base64].
    rewrite (standard_base64_char _ (sextet1_lt x Hx)).
    rewrite (standard_base64_char _ (sextet2_lt x y Hx Hy)).
    rewrite (standard_base64_char _ (sextet3_lt y 0 Hy H0)).
    rewrite N.eqb_refl. now rewrite orb_true_r.
  - inversion H as [|? ? Hx H']; subst.
    inversion H' as [|? ? Hy H'']; subst.
    inversion H'' as [|? ? Hz Hr]; subst.
    destruct (IH Hr) as [IHw IHl].
    change (base64_encode (x :: y :: z :: r))
      with (base64_char (sextet1 x) :: base64_char (sextet2 x y)
            :: base64_char (sextet3 y z) :: base64_char (sextet4 z)
            :: base64_encode r).
    split.
    + apply well_formed_group; try exact IHw; apply standard_base64_char.
      * apply sextet1_lt, Hx.
      * apply sextet2_lt; assumption.
      * apply sextet3_lt; assumption.
      * apply sextet4_lt, Hz.
    + assert (D : forall n, ((S (S (S n)) + 2) / 3 = S ((n + 2) / 3))%nat).
      { intros n. replace (S (S (S n)) + 2)%nat with (n + 2 + 1 * 3)%nat by lia.
        rewrite Nat.div_add by discriminate. lia. }
      cbn [List.length]. rewrite D, IHl. lia.
Qed.

(** ** Further properties: UTF-8 text and the header of the demo page *)

Lemma utf8_lead_size (b : N) :
  (List.length (fst (utf8_lead b))
   + match snd (utf8_lead b) with None => 0 | Some _ => 1 end <= 1)%nat.
Proof.
  unfold utf8_lead.
  destruct (b <=? 127); [simpl; lia|].
  destruct ((194 <=? b) && (b <=? 223)); [simpl; lia|].
  destruct ((224 <=? b) && (b <=? 239)); [simpl; lia|].
  destruct ((240 <=? b) && (b <=? 244)); simpl; lia.
Qed.

Lemma units_of_length (cp : N) : (List.length (units_of cp) <= 2)%nat.
Proof. unfold units_of. destruct (cp <? 65536); simpl; lia. Qed.

Lemma utf8_decode_length (st : option pending) (bs : list N) :
  (List.length (utf8_decode st bs)
   <= List.length bs + match st with None => 0 | Some _ => 1 end)%nat.
Proof.
  revert st. induction bs as [|b bs IH]; intros st.
  - destruct st; simpl; lia.
  - destruct st as [[[[cp needed] lo] hi]|]; cbn [utf8_decode].
    + destruct ((lo <=? b) && (b <=? hi)).
      * cbv zeta. destruct (needed =? 1).
        -- rewrite length_app.
           pose proof (units_of_length (N.lor (N.shiftl cp 6) (N.land b 63))).
           pose proof (IH None). simpl in *. lia.
        -- pose proof (IH (Some (N.lor (N.shiftl cp 6) (N.land b 63),
                                 needed - 1, 128, 191))).
           simpl in *. lia.
      * pose proof (utf8_lead_size b) as L.
        destruct (utf8_lead b) as [out st'].
        cbn [List.length fst snd] in *. rewrite length_app.
        pose proof (IH st'). lia.
    + pose proof (utf8_lead_size b) as L.
      destruct (utf8_lead b) as [out st'].
      cbn [fst snd] in *. rewrite length_app.
      pose proof (IH st'). simpl. lia.
Qed.

Lemma toString_length (buf : list N) :
  (List.length (toString buf) <= List.length buf)%nat.
Proof.
  pose proof (utf8_decode_length None buf) as H. unfold toString.
  simpl in H. lia.
Qed.

(** A sequence that has begun never gives back its lead byte followed by the
    bytes that come after it. *)
Lemma pending_not_identity (p : pending) (r : list N) (b : N) :
  b < 256 -> utf8_decode (Some p) r <> b :: r.
Proof.
  intros Hb. destruct p as [[[cp needed] lo] hi].
  destruct r as [|c r]; cbn [utf8_decode].
  - intros H. injection H as H. unfold replacement in H. lia.
  - destruct ((lo <=? c) && (c <=? hi)).
    + cbv zeta. destruct (needed =? 1).
      * unfold units_of.
        destruct (N.lor (N.shiftl cp 6) (N.land c 63) <? 65536).
        -- intros H. injection H as _ H.
           pose proof (toString_length r) as L. unfold toString in L.
           rewrite H in L. simpl in L. unfold code_unit in L. lia.
        -- intros H. apply (f_equal (hd 0)) in H. cbn [hd app] in H. lia.
      * intros H.
        pose proof (utf8_decode_length
                      (Some (N.lor (N.shiftl cp 6) (N.land c 63),
                             needed - 1, 128, 191)) r) as L.
        rewrite H in L. simpl in L. unfold code_unit in L. lia.
    + destruct (utf8_lead c) as [out st'].
      intros H. injection H as H _. unfold replacement in H. lia.
Qed.

Lemma toString_identity_ascii (buf : list N) :
  is_bytes buf -> toString buf = buf -> Forall (fun b => b < 128) buf.
Proof.
  unfold is_bytes. intros Hb.
  induction Hb as [|b r Hlt Hr IH]; [constructor|].
  unfold toString. cbn [utf8_decode]. unfold utf8_lead.
  destruct (N.leb_spec b 127) as [Hle|Hgt].
  - simpl. intros H. injection H as H.
    constructor; [lia | apply IH, H].
  - assert (R : forall s, replacement :: s <> b :: r).
    { intros s H. injection H as H _. unfold replacement in H. lia. }
    destruct ((194 <=? b) && (b <=? 223));
      [intros H; now apply (pending_not_identity _ r b Hlt) in H|].
    destruct ((224 <=? b) && (b <=? 239));
      [intros H; now apply (pending_not_identity _ r b Hlt) in H|].
    destruct ((240 <=? b) && (b <=? 244));
      [intros H; now apply (pending_not_identity _ r b Hlt) in H|].
    intros H. now apply R in H.
Qed.

(** X12: a buffer reads as its own bytes exactly when all of them are ASCII:
    a byte from 128 on never comes out of [toString] as it went in. *)
Theorem toString_identity_iff (buf : list N) :
  is_bytes buf ->
  (toString buf = buf <-> Forall (fun b => b < 128) buf).
Proof.
  intros Hb. split.
  - apply toString_identity_ascii, Hb.
  - apply toString_ascii.
Qed.

Lemma demo2_authorization_Normal (cfg : secrets) (h : jsstring) :
  demo2_authorization cfg = Normal h ->
  is_bytes (USER_NAME cfg ++ colon :: PASSWORD cfg)
  /\ h = lit "Basic "
         ++ base64_encode (USER_NAME cfg ++ colon :: PASSWORD cfg).
Proof.
  unfold demo2_authorization.
  change (lit ":" ++ PASSWORD cfg) with (colon :: PASSWORD cfg).
  destruct (btoa (USER_NAME cfg ++ colon :: PASSWORD cfg)) as [b64|e] eqn:E;
    [|discriminate].
  cbn [bind]. intros H. injection H as <-.
  destruct (btoa_Normal _ _ E) as [Hb ->]. now split.
Qed.

(** X13: the header the second demo button builds logs in whenever the
    configured user name and password are ASCII and have no colon: the
    response is 200 with the user name as JSON. *)
Theorem demo2_authorized
  (cfg : secrets) (request : Request.t) (h : jsstring) :
  Forall (fun c => c < 128) (USER_NAME cfg ++ colon :: PASSWORD cfg) ->
  ~ In colon (USER_NAME cfg) ->
  ~ In colon (PASSWORD cfg) ->
  demo2_authorization cfg = Normal h ->
  pathname (Request.url request) = protected ->
  Authorization request = Some h ->
  fetch cfg request
  = Normal {| Response.status := 200;
              Response.headers := json_headers;
              Response.body := Json [("userName"%string, USER_NAME cfg)] |}.
Proof.
  intros Hascii Hu Hp Hh Hpath Hauth.
  destruct (demo2_authorization_Normal cfg h Hh) as [Hb ->].
  rewrite (fetch_matching cfg request _ Hpath Hauth); [reflexivity| |assumption..].
  rewrite (Buffer_from_base64_encode _ Hb).
  now apply toString_ascii.
Qed.

(** X14: the header the second demo button builds is answered 401 whenever
    the configured user name or password has a code unit from 128 to 255:
    [btoa] writes it as one byte and the handler reads the bytes as UTF-8. *)
Theorem demo2_latin1_rejected
  (cfg : secrets) (request : Request.t) (h : jsstring) :
  demo2_authorization cfg = Normal h ->
  ~ Forall (fun c => c < 128) (USER_NAME cfg ++ colon :: PASSWORD cfg) ->
  pathname (Request.url request) = protected ->
  Authorization request = Some h ->
  fetch cfg request = Normal unauthorized.
Proof.
  intros Hh Hlatin Hpath Hauth.
  destruct (demo2_authorization_Normal cfg h Hh) as [Hb ->].
  rewrite (fetch_basic cfg request _ Hpath Hauth).
  unfold fields. rewrite (Buffer_from_base64_encode _ Hb).
  destruct (split colon (toString (USER_NAME cfg ++ colon :: PASSWORD cfg)))
    as [|u [|p rest]] eqn:S; try reflexivity.
  destruct (str_eqb u (USER_NAME cfg)) eqn:Eu; [|reflexivity].
  destruct (str_eqb p (PASSWORD cfg)) eqn:Ep; [|reflexivity].
  exfalso. apply Hlatin.
  apply str_eqb_eq in Eu, Ep. subst u p.
  destruct (split_two_fields colon _ _ _ _ S) as (tail & Ht & _).
  pose proof (toString_length (USER_NAME cfg ++ colon :: PASSWORD cfg)) as L.
  rewrite Ht in L at 1.
  assert (Hnil : tail = []).
  { destruct tail as [|c tail]; [reflexivity|].
    rewrite !length_app in L. cbn [List.length] in L.
    rewrite !length_app in L. cbn [List.length] in L.
    unfold code_unit in L. lia. }
  subst tail. rewrite app_nil_r in Ht.
  now apply (toString_identity_ascii _ Hb).
Qed.

(** ** Further properties: the examples of the README *)

Lemma BasicExample_fetch (request : Request.t) :
  BasicExample.fetch request =
  Normal
    match Authorization request with
    | None => unauthorized
    | Some a =>
        if startsWith a (lit "Basic ") then
          match fields (slice a 6) with
          | u :: p :: _ =>
              if str_eqb u (lit "tom") && str_eqb p (lit "1234")
              then ok_response
              else unauthorized
          | _ => unauthorized
          end
        else unauthorized
    end.
Proof.
  unfold BasicExample.fetch, Authorization.
  destruct (Headers_get (Request.headers request) (lit "Authorization"))
    as [a|]; [|reflexivity].
  destruct a as [|c a]; [reflexivity|].
  cbn [not_ call bind].
  destruct (startsWith (c :: a) (lit "Basic ")); cbn [negb]; [|reflexivity].
  change (slice (c :: a) (List.length (lit "Basic ")))
    with (slice (c :: a) 6).
  fold (fields (slice (c :: a) 6)).
  unfold strict_neq, BasicExample.USER_NAME, BasicExample.PASSWORD.
  destruct (fields (slice (c :: a) 6)) as [|u [|p rest]];
    cbn [destructure2 strict_eq negb orb]; try reflexivity.
  - now rewrite orb_true_r.
  - destruct (str_eqb u (lit "tom")), (str_eqb p (lit "1234")); reflexivity.
Qed.

Lemma ResetExample_fetch (request : Request.t) :
  ResetExample.fetch request =
  Normal
    match Authorization request with
    | None => unauthorized
    | Some a =>
        if startsWith a (lit "Basic ") then
          match fields (slice a 6) with
          | (_ :: _) :: (_ :: _) :: _ => ok_response
          | _ => unauthorized
          end
        else unauthorized
    end.
Proof.
  unfold ResetExample.fetch, Authorization.
  destruct (Headers_get (Request.headers request) (lit "Authorization"))
    as [a|]; [|reflexivity].
  destruct a as [|c a]; [reflexivity|].
  cbn [not_ call bind].
  destruct (startsWith (c :: a) (lit "Basic ")); cbn [negb]; [|reflexivity].
  change (slice (c :: a) (List.length (lit "Basic ")))
    with (slice (c :: a) 6).
  fold (fields (slice (c :: a) 6)).
  destruct (fields (slice (c :: a) 6)) as [|[|u0 u] [|[|p0 p] rest]];
    reflexivity.
Qed.

(** X15: the first example of the README answers a request on any path with
    the status that [index.ts], with the same credentials, gives on
    [/api/data] to a request with the same [Authorization] header: either
    both give the same 401 response, or the example gives 200 with neither
    header nor body where [index.ts] gives 200 with the JSON body and its
    content type. *)
Theorem BasicExample_agrees (request r' : Request.t) :
  pathname (Request.url r') = protected ->
  Authorization r' = Authorization request ->
  (BasicExample.fetch request
   = Normal {| Response.status := 401;
               Response.headers := [(lit "WWW-Authenticate", lit "Basic")];
               Response.body := Null |}
   /\ fetch tom_1234 r'
      = Normal {| Response.status := 401;
                  Response.headers := [(lit "WWW-Authenticate", lit "Basic")];
                  Response.body := Null |})
  \/ (BasicExample.fetch request
      = Normal {| Response.status := 200;
                  Response.headers := [];
                  Response.body := Null |}
      /\ fetch tom_1234 r'
         = Normal {| Response.status := 200;
                     Response.headers := json_headers;
                     Response.body := Json [("userName"%string, lit "tom")] |}).
Proof.
  intros Hpath Hauth.
  rewrite BasicExample_fetch, (fetch_protected tom_1234 r' Hpath), Hauth.
  destruct (Authorization request) as [a|]; [|now left].
  destruct (startsWith a (lit "Basic ")); [|now left].
  destruct (fields (slice a 6)) as [|u [|p rest]]; try (now left).
  change (USER_NAME tom_1234) with (lit "tom").
  change (PASSWORD tom_1234) with (lit "1234").
  destruct (str_eqb u (lit "tom")) eqn:Eu; [|now left].
  destruct (str_eqb p (lit "1234")); [|now left].
  apply str_eqb_eq in Eu. subst u. now right.
Qed.

(** X16: the second example of the README answers 200, without body, exactly
    to the requests whose header begins with ["Basic "] and whose payload
    decodes to a non-empty first field and a non-empty second one, whatever
    they are; every other request gets the 401 response. *)
Theorem ResetExample_accepts (request : Request.t) :
  (ResetExample.fetch request = Normal ok_response
   \/ ResetExample.fetch request = Normal unauthorized)
  /\ (ResetExample.fetch request = Normal ok_response
      <-> exists x u p rest,
            Authorization request = Some (lit "Basic " ++ x)
            /\ fields x = u :: p :: rest /\ u <> [] /\ p <> []).
Proof.
  rewrite ResetExample_fetch.
  destruct (Authorization request) as [a|] eqn:Ha.
  2:{ split; [now right|]. split; [discriminate|].
      intros (x & u & p & rest & H & _). discriminate. }
  destruct (startsWith a (lit "Basic ")) eqn:Hs.
  2:{ split; [now right|]. split; [discriminate|].
      intros (x & u & p & rest & H & _).
      assert (E : a = lit "Basic " ++ x) by congruence.
      rewrite E, startsWith_app in Hs. discriminate. }
  pose proof (startsWith_inv a (lit "Basic ") Hs) as E.
  change (List.length (lit "Basic ")) with 6%nat in E.
  assert (K : forall x, Some a = Some (lit "Basic " ++ x) -> x = slice a 6).
  { intros x H. assert (E' : a = lit "Basic " ++ x) by congruence.
    rewrite E'. change 6%nat with (List.length (lit "Basic ")).
    now rewrite slice_app. }
  destruct (fields (slice a 6)) as [|[|u0 u] [|[|p0 p] rest]] eqn:F.
  all: split;
    [first [now left | now right]
    |split;
     [first [discriminate
            | intros _; exists (slice a 6), (u0 :: u), (p0 :: p), rest;
              rewrite <- E; repeat split; [exact F | discriminate..]]
     |first [reflexivity
            | intros (x & u' & p' & rest' & H & F' & Hu & Hp);
              rewrite (K x H), F in F';
              first [discriminate F'
                    | injection F' as <- <- _; contradiction
                    | injection F' as <- _; contradiction]]]].
Qed.

(** X17: the empty-field branch of the second example adds nothing to the
    check of [index.ts] when the configured user name and password are
    non-empty: every request that [index.ts] answers 200 passes it. *)
Theorem empty_branch_redundant (cfg : secrets) (request : Request.t) :
  USER_NAME cfg <> [] ->
  PASSWORD cfg <> [] ->
  (exists resp,
      fetch cfg request = Normal resp /\ Response.status resp = 200) ->
  ResetExample.fetch request = Normal ok_response.
Proof.
  intros HU HP (resp & Hresp & Hst).
  destruct (str_eqb (pathname (Request.url request)) protected) eqn:E.
  2:{ apply str_eqb_neq in E.
      rewrite (fetch_other_path cfg request E) in Hresp.
      injection Hresp as <-. discriminate. }
  apply str_eqb_eq in E.
  rewrite (fetch_protected cfg request E) in Hresp.
  rewrite ResetExample_fetch.
  destruct (Authorization request) as [a|];
    [|injection Hresp as <-; discriminate].
  destruct (startsWith a (lit "Basic "));
    [|injection Hresp as <-; discriminate].
  destruct (fields (slice a 6)) as [|u [|p rest]];
    try (injection Hresp as <-; discriminate).
  destruct (str_eqb u (USER_NAME cfg)) eqn:Eu;
    [|injection Hresp as <-; discriminate].
  destruct (str_eqb p (PASSWORD cfg)) eqn:Ep;
    [|injection Hresp as <-; discriminate].
  apply str_eqb_eq in Eu, Ep. subst u p.
  destruct (USER_NAME cfg); [contradiction|].
  destruct (PASSWORD cfg); [contradiction|]. reflexivity.
Qed.

(** X18: the reset of the README: a header whose payload decodes to a user
    name without colon, a colon and nothing after it, is answered 401 by the
    second example, whatever the user name. *)
Theorem reset_by_empty_password (request : Request.t) (x u : jsstring) :
  Authorization request = Some (lit "Basic " ++ x) ->
  toString (Buffer_from x) = u ++ [colon] ->
  ~ In colon u ->
  ResetExample.fetch request = Normal unauthorized.
Proof.
  intros Hauth Htext Hu.
  rewrite ResetExample_fetch, Hauth, startsWith_app.
  change 6%nat with (List.length (lit "Basic ")). rewrite slice_app.
  unfold fields. rewrite Htext, (split_app colon u [] Hu).
  destruct u; reflexivity.
Qed.

(** ** The further properties at concrete requests *)

Lemma fields_after_second_ignored_witness :
  fields (lit "dG9tOjEyMzQ6eA==") <> fields (lit "dG9tOjEyMzQ6eTp6")
  /\ fetch tom_1234
       (get_request protected (Some (lit "Basic dG9tOjEyMzQ6eA==")))
     = fetch tom_1234
         (get_request protected (Some (lit "Basic dG9tOjEyMzQ6eTp6"))).
Proof.
  split; [vm_compute; discriminate|].
  apply (fields_after_second_ignored tom_1234
           (get_request protected (Some (lit "Basic dG9tOjEyMzQ6eA==")))
           (get_request protected (Some (lit "Basic dG9tOjEyMzQ6eTp6")))
           (lit "dG9tOjEyMzQ6eA==") (lit "dG9tOjEyMzQ6eTp6"));
    reflexivity.
Defined.

Lemma colon_in_credentials_locks_out_witness :
  btoa (lit "tom:12:34") = Normal (lit "dG9tOjEyOjM0")
  /\ fetch {| USER_NAME := lit "tom"; PASSWORD := lit "12:34" |}
       (get_request protected (Some (lit "Basic dG9tOjEyOjM0")))
     = Normal unauthorized.
Proof.
  split; [reflexivity|].
  apply (colon_in_credentials_locks_out
           {| USER_NAME := lit "tom"; PASSWORD := lit "12:34" |}
           (get_request protected (Some (lit "Basic dG9tOjEyOjM0")))).
  - right. vm_compute. right. right. left. reflexivity.
  - reflexivity.
Defined.

Lemma white_space_ignored_witness :
  fetch tom_1234 (get_request protected (Some (lit "Basic dG9t OjEy MzQ=")))
  = fetch tom_1234 (get_request protected (Some (lit "Basic dG9tOjEyMzQ="))).
Proof.
  apply (white_space_ignored tom_1234
           (get_request protected (Some (lit "Basic dG9t OjEy MzQ=")))
           (get_request protected (Some (lit "Basic dG9tOjEyMzQ=")))
           (lit "dG9t OjEy MzQ="));
    reflexivity.
Defined.

Lemma padding_optional_witness :
  unpadded (base64_encode (lit "tom:1234")) = lit "dG9tOjEyMzQ"
  /\ Buffer_from (unpadded (base64_encode (lit "tom:1234"))) = lit "tom:1234"
  /\ fetch tom_1234 (get_request protected (Some (lit "Basic dG9tOjEyMzQ=")))
     = fetch tom_1234 (get_request protected (Some (lit "Basic dG9tOjEyMzQ"))).
Proof.
  split; [reflexivity|].
  apply (padding_optional tom_1234
           (get_request protected (Some (lit "Basic dG9tOjEyMzQ=")))
           (get_request protected (Some (lit "Basic dG9tOjEyMzQ")))
           (lit "tom:1234")); try reflexivity.
  unfold is_bytes. vm_compute lit. repeat (constructor; [reflexivity|]).
  constructor.
Defined.

Lemma urlsafe_alphabet_accepted_witness :
  map urlsafe (lit "+/8=") = lit "-_8="
  /\ fetch tom_1234 (get_request protected (Some (lit "Basic +/8=")))
     = fetch tom_1234 (get_request protected (Some (lit "Basic -_8="))).
Proof.
  split; [reflexivity|].
  apply (urlsafe_alphabet_accepted tom_1234
           (get_request protected (Some (lit "Basic +/8=")))
           (get_request protected (Some (lit "Basic -_8=")))
           (lit "+/8="));
    reflexivity.
Defined.

Lemma Buffer_from_btoa_witness :
  btoa (lit "tom:1234") = Normal (lit "dG9tOjEyMzQ=")
  /\ Buffer_from (lit "dG9tOjEyMzQ=") = lit "tom:1234".
Proof.
  split; [reflexivity|].
  apply (Buffer_from_btoa (lit "tom:1234") (lit "dG9tOjEyMzQ=")).
  reflexivity.
Defined.

Lemma btoa_well_formed_witness :
  well_formed_base64 (lit "dG9tOg==") = true
  /\ List.length (lit "dG9tOg==")
     = (4 * ((List.length (lit "tom:") + 2) / 3))%nat.
Proof.
  apply (btoa_well_formed (lit "tom:") (lit "dG9tOg==")). reflexivity.
Defined.

Lemma toString_identity_iff_witness :
  toString [116; 233] = [116; replacement]
  /\ (toString [116; 233] = [116; 233]
      <-> Forall (fun b => b < 128) [116; 233]).
Proof.
  split; [reflexivity|].
  apply (toString_identity_iff [116; 233]).
  unfold is_bytes. repeat (constructor; [reflexivity|]). constructor.
Defined.

Lemma demo2_authorized_witness :
  demo2_authorization tom_1234 = Normal (lit "Basic dG9tOjEyMzQ=")
  /\ fetch tom_1234 (get_request protected (Some (lit "Basic dG9tOjEyMzQ=")))
     = Normal {| Response.status := 200;
                 Response.headers := json_headers;
                 Response.body := Json [("userName"%string, lit "tom")] |}.
Proof.
  split; [reflexivity|].
  apply (demo2_authorized tom_1234
           (get_request protected (Some (lit "Basic dG9tOjEyMzQ=")))
           (lit "Basic dG9tOjEyMzQ=")).
  - vm_compute. repeat (constructor; [reflexivity|]). constructor.
  - no_colon.
  - no_colon.
  - reflexivity.
  - reflexivity.
  - reflexivity.
Defined.

Lemma demo2_latin1_rejected_witness :
  demo2_authorization {| USER_NAME := lit "tom"; PASSWORD := [233] |}
  = Normal (lit "Basic dG9tOuk=")
  /\ fetch {| USER_NAME := lit "tom"; PASSWORD := [233] |}
       (get_request protected (Some (lit "Basic dG9tOuk=")))
     = Normal unauthorized.
Proof.
  split; [reflexivity|].
  apply (demo2_latin1_rejected
           {| USER_NAME := lit "tom"; PASSWORD := [233] |}
           (get_request protected (Some (lit "Basic dG9tOuk=")))
           (lit "Basic dG9tOuk=")).
  - reflexivity.
  - intros H. rewrite Forall_forall in H.
    assert (L : 233 < 128) by (apply H; vm_compute; tauto).
    discriminate L.
  - reflexivity.
  - reflexivity.
Defined.

Lemma BasicExample_agrees_witness :
  BasicExample.fetch
    (get_request (lit "/any") (Some (lit "Basic dG9tOjEyMzQ=")))
  = Normal ok_response
  /\ ((BasicExample.fetch
         (get_request (lit "/any") (Some (lit "Basic dG9tOjEyMzQ=")))
       = Normal {| Response.status := 401;
                   Response.headers := [(lit "WWW-Authenticate", lit "Basic")];
                   Response.body := Null |}
       /\ fetch tom_1234
            (get_request protected (Some (lit "Basic dG9tOjEyMzQ=")))
          = Normal {| Response.status := 401;
                      Response.headers :=
                        [(lit "WWW-Authenticate", lit "Basic")];
                      Response.body := Null |})
      \/ (BasicExample.fetch
            (get_request (lit "/any") (Some (lit "Basic dG9tOjEyMzQ=")))
          = Normal {| Response.status := 200;
                      Response.headers := [];
                      Response.body := Null |}
          /\ fetch tom_1234
               (get_request protected (Some (lit "Basic dG9tOjEyMzQ=")))
             = Normal {| Response.status := 200;
                         Response.headers := json_headers;
                         Response.body :=
                           Json [("userName"%string, lit "tom")] |})).
Proof.
  split; [reflexivity|].
  apply (BasicExample_agrees
           (get_request (lit "/any") (Some (lit "Basic dG9tOjEyMzQ=")))
           (get_request protected (Some (lit "Basic dG9tOjEyMzQ="))));
    reflexivity.
Defined.

Lemma empty_branch_redundant_witness :
  ResetExample.fetch
    (get_request protected (Some (lit "Basic dG9tOjEyMzQ=")))
  = Normal ok_response.
Proof.
  apply (empty_branch_redundant tom_1234
           (get_request protected (Some (lit "Basic dG9tOjEyMzQ=")))).
  - discriminate.
  - discriminate.
  - eexists. split; [vm_compute; reflexivity | reflexivity].
Defined.

Lemma reset_by_empty_password_witness :
  toString (Buffer_from (lit "QDo=")) = lit "@" ++ [colon]
  /\ ResetExample.fetch (get_request (lit "/") (Some (lit "Basic QDo=")))
     = Normal unauthorized.
Proof.
  split; [reflexivity|].
  apply (reset_by_empty_password
           (get_request (lit "/") (Some (lit "Basic QDo=")))
           (lit "QDo=") (lit "@")).
  - reflexivity.
  - reflexivity.
  - no_colon.
Defined.
